(** * CryptoAnalyzer Pro: the dashboard front end

    A shallow embedding of the TypeScript front end (Dashboard.tsx, Login.tsx,
    App.tsx, index.tsx) and the properties of its formatter, session store,
    view router and query cache.

    JavaScript numbers are IEEE 754 binary64 values: they are modelled by
    [spec_float] with precision 53 and maximal exponent 1024, whose
    operations ([SFcompare], [SFdiv]) compute.  Strings are byte strings
    (UTF-8).  The browser's localStorage is a finite map from keys to
    strings. *)

From stdpp Require Import gmap strings list.
From Stdlib Require Import ZArith QArith Qround Bool Ascii String List Lia.
From Stdlib Require Import SpecFloat.
Import ListNotations.

Local Open Scope string_scope.
Local Open Scope Z_scope.

(** ** JavaScript completions *)

Inductive error : Type :=
  | RangeError (msg : string)
  | TypeError (msg : string)
  | Error (msg : string).

Inductive completion (A : Type) : Type :=
  | Normal (a : A)
  | Throw (e : error).
Arguments Normal {A} a.
Arguments Throw {A} e.

Definition bind {A B : Type} (c : completion A) (k : A -> completion B) : completion B :=
  match c with
  | Normal a => k a
  | Throw e => Throw e
  end.

Notation "'let*' x ':=' c 'in' k" := (bind c (fun x => k))
  (at level 10, x name, c at level 100, k at level 200, only parsing).

(** ** JavaScript numbers *)

Module Number.

Definition number : Type := spec_float.

Definition prec : Z := 53.
Definition emax : Z := 1024.

Definition NaN : number := S754_nan.
Definition PInfinity : number := S754_infinity false.
Definition NInfinity : number := S754_infinity true.

(** A numeric literal whose value is the integer [n]. *)
Definition ofZ (n : Z) : number := binary_normalize prec emax n 0 false.

(** The literals of the formatter; each is a double exactly. *)
Definition lit_0 : number := S754_zero false.
Definition lit_1e6 : number := Eval vm_compute in ofZ (10 ^ 6).
Definition lit_1e9 : number := Eval vm_compute in ofZ (10 ^ 9).
Definition lit_1e12 : number := Eval vm_compute in ofZ (10 ^ 12).

Definition isFinite (x : number) : bool :=
  match x with
  | S754_zero _ | S754_finite _ _ _ => true
  | S754_infinity _ | S754_nan => false
  end.

Definition isNaN (x : number) : bool :=
  match x with
  | S754_nan => true
  | _ => false
  end.

Definition is_double (x : number) : bool := valid_binary prec emax x.

(** The relational operators and the division of the language. *)
Definition gt (x y : number) : bool := SFltb y x.
Definition lt (x y : number) : bool := SFltb x y.
Definition ge (x y : number) : bool := SFleb y x.
Definition eq (x y : number) : bool := SFeqb x y.
Definition div (x y : number) : number := SFdiv prec emax x y.

(** The sign bit and the exact magnitude [num / den] of a finite number. *)
Definition signbit (x : number) : bool :=
  match x with
  | S754_zero s | S754_infinity s | S754_finite s _ _ => s
  | S754_nan => false
  end.

Definition magnitude (x : number) : Z * Z :=
  match x with
  | S754_finite _ m e =>
      if 0 <=? e then (Z.pos m * 2 ^ e, 1) else (Z.pos m, 2 ^ (- e))
  | _ => (0, 1)
  end.

(** [x < 0] on the mathematical value: negative zero is not below zero. *)
Definition negative (x : number) : bool :=
  match x with
  | S754_finite true _ _ => true
  | _ => false
  end.

(** The digits of the decimal representation of a natural number, the
    most significant first; [0] is the single digit 0. *)
Definition digit (d : Z) : ascii := ascii_of_nat (48 + Z.to_nat d).

Fixpoint digits_onto (fuel : nat) (n : Z) (acc : string) : string :=
  match fuel with
  | O => acc
  | S fuel' =>
      let acc' := String (digit (n mod 10)) acc in
      if n / 10 =? 0 then acc' else digits_onto fuel' (n / 10) acc'
  end.

Definition digits (n : Z) : string := digits_onto (S (Z.to_nat (Z.log2 n))) n "".

(** The first [k] code units of a string, and the others. *)
Fixpoint first_units (k : nat) (s : string) : string :=
  match k, s with
  | S k', String c s' => String c (first_units k' s')
  | _, _ => EmptyString
  end.

Fixpoint other_units (k : nat) (s : string) : string :=
  match k, s with
  | S k', String _ s' => other_units k' s'
  | _, _ => s
  end.

(** The integer [n] for which [n / 10^f] is closest to [num / den], the
    larger one on a tie. *)
Definition round_half_up (f : Z) (nd : Z * Z) : Z :=
  let '(num, den) := nd in (2 * 10 ^ f * num + den) / (2 * den).

Fixpoint zeros (k : nat) : string :=
  match k with
  | O => ""
  | S k' => String "0" (zeros k')
  end.

(** *** Number::toString (radix 10)

    For a positive finite [x], the digits are those of the integer [s] with
    the fewest digits [k] such that [s * 10^(n-k)] rounds to [x]; among
    several, the one nearest to [x], then the even one. *)

Definition pow2Q (e : Z) : Q := if 0 <=? e then inject_Z (2 ^ e) else 1 # Z.to_pos (2 ^ (- e)).
Definition pow10Q (e : Z) : Q := if 0 <=? e then inject_Z (10 ^ e) else 1 # Z.to_pos (10 ^ (- e)).

Definition valueQ (m : positive) (e : Z) : Q := (inject_Z (Z.pos m) * pow2Q e)%Q.

(** The open or closed interval of the reals that round to [m * 2^e]:
    half the gap to each neighbour, the ends included when [m] is even. *)
Definition rounds_to (m : positive) (e : Z) : Q * Q * bool :=
  let v := valueQ m e in
  let above := pow2Q (e - 1) in
  let below :=
    if (Z.pos m =? 2 ^ (prec - 1)) && (emin prec emax <? e)
    then pow2Q (e - 2) else pow2Q (e - 1) in
  ((v - below)%Q, (v + above)%Q, Z.even (Z.pos m)).

(** The [n] with [10^(n-1) <= y < 10^n], searched upwards from [n0]. *)
Fixpoint ilog10_from (fuel : nat) (n0 : Z) (y : Q) : Z :=
  match fuel with
  | O => n0
  | S fuel' => if Qle_bool (pow10Q n0) y then ilog10_from fuel' (n0 + 1) y else n0
  end.
Definition ilog10 (y : Q) : Z := ilog10_from 700 (-340) y.

Definition Qabs_diff (a b : Q) : Q := if Qle_bool a b then (b - a)%Q else (a - b)%Q.

(** The admissible [s] with [k] digits and decimal exponent [n], if any. *)
Definition candidate (m : positive) (e : Z) (k n : Z) : option Z :=
  let '(lo, hi, closed) := rounds_to m e in
  let v := valueQ m e in
  let p := pow10Q (n - k) in
  let ql := (lo / p)%Q in
  let qh := (hi / p)%Q in
  let smin0 := if closed then Qceiling ql else Qfloor ql + 1 in
  let smax0 := if closed then Qfloor qh else Qceiling qh - 1 in
  let smin := Z.max smin0 (10 ^ (k - 1)) in
  let smax := Z.min smax0 (10 ^ k - 1) in
  if smax <? smin then None
  else
    let q := (v / p)%Q in
    let better (s t : Z) : bool :=
      let ds := Qabs_diff (inject_Z s) q in
      let dt := Qabs_diff (inject_Z t) q in
      if Qeq_bool ds dt then Z.even s else Qle_bool ds dt in
    let inside (s : Z) : bool := (smin <=? s) && (s <=? smax) in
    let pick (best s : Z) : Z := if inside s && better s best then s else best in
    Some (pick (pick (pick smin smax) (Qfloor q)) (Qfloor q + 1)).

Fixpoint shortest_from (fuel : nat) (m : positive) (e : Z) (k : Z) : Z * Z * Z :=
  let nl := ilog10 (valueQ m e) in
  match candidate m e k nl, candidate m e k (nl + 1), candidate m e k (nl - 1) with
  | Some s, _, _ => (nl, k, s)
  | None, Some s, _ => (nl + 1, k, s)
  | None, None, Some s => (nl - 1, k, s)
  | None, None, None =>
      match fuel with
      | O => (nl, k, 0)
      | S fuel' => shortest_from fuel' m e (k + 1)
      end
  end.

(** [n], [k] and [s] of Number::toString; seventeen digits always suffice. *)
Definition shortest (m : positive) (e : Z) : Z * Z * Z := shortest_from 17 m e 1.

(** The shortest decimal form of a finite number, as the fraction
    [num / den] of its magnitude: the digits of Number::toString scaled by
    their exponent. *)
Definition shortest_magnitude (x : number) : Z * Z :=
  match x with
  | S754_finite _ m e =>
      let '(n, k, s) := shortest m e in
      if 0 <=? n - k then (s * 10 ^ (n - k), 1) else (s, 10 ^ (k - n))
  | _ => (0, 1)
  end.

Definition toString_pos (m : positive) (e : Z) : string :=
  let '(n, k, s) := shortest m e in
  let ds := digits s in
  if (k <=? n) && (n <=? 21) then ds +:+ zeros (Z.to_nat (n - k))
  else if (0 <? n) && (n <=? 21) then
    first_units (Z.to_nat n) ds +:+ "." +:+ other_units (Z.to_nat n) ds
  else if (-6 <? n) && (n <=? 0) then "0." +:+ zeros (Z.to_nat (- n)) +:+ ds
  else
    let ex := (if 0 <=? n - 1 then "+" else "-") +:+ digits (Z.abs (n - 1)) in
    if k =? 1 then ds +:+ "e" +:+ ex
    else first_units 1 ds +:+ "." +:+ other_units 1 ds +:+ "e" +:+ ex.

Definition toString (x : number) : string :=
  match x with
  | S754_nan => "NaN"
  | S754_zero _ => "0"
  | S754_infinity false => "Infinity"
  | S754_infinity true => "-Infinity"
  | S754_finite s m e => (if s then "-" else "") +:+ toString_pos m e
  end.

(** *** Number.prototype.toFixed(fractionDigits) *)

Definition toFixed (x : number) (f : Z) : completion string :=
  if (f <? 0) || (100 <? f)
  then Throw (RangeError "toFixed() digits argument must be between 0 and 100")
  else if negb (isFinite x) then Normal (toString x)
  else
    let s := if negative x then "-" else "" in
    let '(num, den) := magnitude x in
    if 10 ^ 21 * den <=? num then Normal (s +:+ toString (SFabs x))
    else
      let n := round_half_up f (num, den) in
      let m := digits n in
      if f =? 0 then Normal (s +:+ m)
      else
        let k := Z.of_nat (String.length m) in
        let m := if k <=? f then zeros (Z.to_nat (f + 1 - k)) +:+ m else m in
        let k := Z.max k (f + 1) in
        let a := first_units (Z.to_nat (k - f)) m in
        let b := other_units (Z.to_nat (k - f)) m in
        Normal (s +:+ a +:+ "." +:+ b).

(** Reading back a rendering with two decimals: an optional minus sign,
    digits, a point and two digits.  The result is the sign and the number
    of hundredths; any other string is refused. *)
Definition is_digit (c : ascii) : bool :=
  let n := nat_of_ascii c in Nat.leb 48 n && Nat.leb n 57.

Fixpoint read_digits (acc : Z) (s : string) : Z :=
  match s with
  | EmptyString => acc
  | String c s' => read_digits (10 * acc + Z.of_nat (nat_of_ascii c - 48)) s'
  end.

Fixpoint all_digits (s : string) : bool :=
  match s with
  | EmptyString => true
  | String c s' => is_digit c && all_digits s'
  end.

Definition strip_sign (s : string) : bool * string :=
  match s with
  | String c body => if Ascii.eqb c "-" then (true, body) else (false, s)
  | EmptyString => (false, s)
  end.

Definition read_two_decimals (s : string) : option (bool * Z) :=
  let '(neg, body) := strip_sign s in
  let k := String.length body in
  let a := first_units (k - 3) body in
  let b := other_units (k - 2) body in
  if Nat.leb 4 k && all_digits a && all_digits b
     && String.eqb (first_units 1 (other_units (k - 3) body)) "."
  then Some (neg, read_digits 0 (a +:+ b))
  else None.

(** The test of toFixed for the exponent notation, on the exact value. *)
Definition below_1e21 (x : number) : bool :=
  isFinite x && (let '(num, den) := magnitude x in num <? 10 ^ 21 * den).

(** String.prototype.includes *)
Fixpoint includes (sub s : string) : bool :=
  String.prefix sub s
  || match s with
     | EmptyString => false
     | String _ s' => includes sub s'
     end.

End Number.

(** ** Intl.NumberFormat

    The formatter built by [new Intl.NumberFormat('en-US', { style:
    'currency', currency: 'USD', minimumFractionDigits: 2,
    maximumFractionDigits: 2 })], after ECMA-402 as the engines implement
    it: the sign (negative zero included), the currency symbol, the
    integer digits in groups of three and two fraction digits.  The digits
    are those of the shortest decimal form of the number, the one that
    Number::toString prints, rounded half away from zero.  NaN and the
    infinities are rendered by their locale symbols. *)

Module Intl.
Import Number.

Fixpoint group3 (first : bool) (s : string) : string :=
  match s with
  | EmptyString => EmptyString
  | String c s' =>
      let rest := String c (group3 false s') in
      if negb first && (Nat.eqb (String.length s mod 3) 0) then String "," rest else rest
  end.

Definition infinity_symbol : string := "∞".

Definition format_usd (value : number) : string :=
  let sign := if signbit value then "-" else "" in
  match value with
  | S754_nan => "$NaN"
  | S754_infinity _ => sign +:+ "$" +:+ infinity_symbol
  | _ =>
      let n := round_half_up 2 (shortest_magnitude value) in
      let m := digits n in
      let k := String.length m in
      let m := if Nat.leb k 2 then zeros (3 - k) +:+ m else m in
      let k := Nat.max k 3 in
      sign +:+ "$" +:+ group3 true (first_units (k - 2) m) +:+ "." +:+ other_units (k - 2) m
  end.

End Intl.

(** ** react-query

    The query cache that [useQuery] and [QueryClient] of the react-query
    package (version 3) provide.  The package is a dependency of the front
    end, not part of it: the definitions follow the package's Query (state
    reducer, fetch, removeObserver), Retryer (the retry loop) and
    QueryObserver (onSubscribe, the refetch interval).  Time is in
    milliseconds, and 0 stands for no time, as in the package.  A query is
    driven by events: observers mount and unmount, interval timers fire,
    the user refetches, the query function settles, a retry delay elapses
    while the page is visible and online or while it is not, the page
    becomes visible and online again.  A query is followed while it is in
    the cache: its removal, [cacheTime] after the last observer left, is
    not an event. *)

Module ReactQuery.

Record QueryOptions : Type := {
  retry : nat;
  retryDelay : Z;
  staleTime : Z;
  cacheTime : Z;
  refetchInterval : option Z;
  refetchIntervalInBackground : bool;
}.

Inductive QueryStatus : Type := Idle | Loading | Failure | Success.

Section Core.
Context {TData : Type}.

Record QueryState : Type := {
  data : option TData;
  dataUpdatedAt : Z;
  error : option string;
  fetchFailureCount : nat;
  isFetching : bool;
  isInvalidated : bool;
  status : QueryStatus;
}.

Definition getDefaultState : QueryState :=
  {| data := None; dataUpdatedAt := 0; error := None; fetchFailureCount := 0;
     isFetching := false; isInvalidated := false; status := Idle |}.

Inductive Action : Type :=
  | ActFailed
  | ActFetch
  | ActSuccess (d : TData) (now : Z)
  | ActError (e : string)
  | ActInvalidate.

Definition reducer (state : QueryState) (action : Action) : QueryState :=
  match action with
  | ActFailed =>
      {| data := data state; dataUpdatedAt := dataUpdatedAt state; error := error state;
         fetchFailureCount := S (fetchFailureCount state);
         isFetching := isFetching state; isInvalidated := isInvalidated state;
         status := status state |}
  | ActFetch =>
      {| data := data state; dataUpdatedAt := dataUpdatedAt state;
         error := if dataUpdatedAt state =? 0 then None else error state;
         fetchFailureCount := 0;
         isFetching := true; isInvalidated := isInvalidated state;
         status := if dataUpdatedAt state =? 0 then Loading else status state |}
  | ActSuccess d now =>
      {| data := Some d; dataUpdatedAt := now; error := None;
         fetchFailureCount := 0;
         isFetching := false; isInvalidated := false;
         status := Success |}
  | ActError e =>
      {| data := data state; dataUpdatedAt := dataUpdatedAt state; error := Some e;
         fetchFailureCount := S (fetchFailureCount state);
         isFetching := false; isInvalidated := isInvalidated state;
         status := Failure |}
  | ActInvalidate =>
      {| data := data state; dataUpdatedAt := dataUpdatedAt state; error := error state;
         fetchFailureCount := fetchFailureCount state;
         isFetching := isFetching state; isInvalidated := true;
         status := status state |}
  end.

(** An observer is one mounted [useQuery]; it owns the interval timer. *)
Record Observer : Type := {
  nextTick : option Z;
}.

(** A query of the cache, with its retryer.  [retryPending] is the retry
    that waits, with the time its delay elapses, and [isPaused] tells that
    the delay elapsed while the page was hidden or offline.  [running]
    counts the calls of the query function that have not settled;
    [callLog] records when each call started, the latest first, and
    [fetchCount] how many fetches (retryers) were started. *)
Record Query : Type := {
  state : QueryState;
  promise : bool;
  failureCount : nat;
  retryPending : option (Z * string);
  isPaused : bool;
  cancelRetry : bool;
  observers : list Observer;
  running : nat;
  callLog : list Z;
  fetchCount : nat;
}.

Definition newQuery : Query :=
  {| state := getDefaultState; promise := false; failureCount := 0;
     retryPending := None; isPaused := false; cancelRetry := false; observers := [];
     running := 0; callLog := []; fetchCount := 0 |}.

Definition setState (st : QueryState) (q : Query) : Query :=
  {| state := st; promise := promise q;
     failureCount := failureCount q; retryPending := retryPending q;
     isPaused := isPaused q;
     cancelRetry := cancelRetry q; observers := observers q;
     running := running q; callLog := callLog q; fetchCount := fetchCount q |}.

Definition setObservers (obs : list Observer) (q : Query) : Query :=
  {| state := state q; promise := promise q;
     failureCount := failureCount q; retryPending := retryPending q;
     isPaused := isPaused q;
     cancelRetry := cancelRetry q; observers := obs;
     running := running q; callLog := callLog q; fetchCount := fetchCount q |}.

Definition setCancelRetry (b : bool) (q : Query) : Query :=
  {| state := state q; promise := promise q;
     failureCount := failureCount q; retryPending := retryPending q;
     isPaused := isPaused q;
     cancelRetry := b; observers := observers q;
     running := running q; callLog := callLog q; fetchCount := fetchCount q |}.

(** At most one call of the query function is running, and only while the
    query is fetching; a retry waits only while the query is fetching and
    no call is running. *)
Definition single_flight (q : Query) : Prop :=
  (running q <= 1)%nat /\
  (running q = 1%nat ->
   isFetching (state q) = true /\ promise q = true /\ retryPending q = None) /\
  (retryPending q <> None ->
   isFetching (state q) = true /\ promise q = true /\ running q = 0%nat).

Section WithOptions.
Variable options : QueryOptions.

(** QueryObserver.updateRefetchInterval: the timer of an observer, set
    [refetchInterval] ahead. *)
Definition armed (now : Z) : Observer :=
  {| nextTick := option_map (Z.add now) (refetchInterval options) |}.

(** Query.dispatch: the reducer, then every observer is notified and
    sets its timer anew (onQueryUpdate, updateTimers). *)
Definition dispatch (now : Z) (action : Action) (q : Query) : Query :=
  setObservers (map (fun _ => armed now) (observers q))
    (setState (reducer (state q) action) q).

(** Query.isStaleByTime *)
Definition isStale (now : Z) (q : Query) : bool :=
  isInvalidated (state q)
  || (dataUpdatedAt (state q) =? 0)
  || (Z.max (dataUpdatedAt (state q) + staleTime options - now) 0 =? 0).

(** shouldFetchOnMount, with the default [enabled], [retryOnMount] and
    [refetchOnMount]. *)
Definition shouldLoadOnMount (q : Query) : bool :=
  dataUpdatedAt (state q) =? 0.

Definition shouldRefetchOnMount (now : Z) (q : Query) : bool :=
  (0 <? dataUpdatedAt (state q)) && isStale now q.

Definition shouldFetchOnMount (now : Z) (q : Query) : bool :=
  shouldLoadOnMount q || shouldRefetchOnMount now q.

(** The Retryer of a new fetch calls the query function at once. *)
Definition startRetryer (now : Z) (q : Query) : Query :=
  {| state := state q; promise := true; failureCount := 0; retryPending := None;
     isPaused := false; cancelRetry := false; observers := observers q;
     running := S (running q); callLog := now :: callLog q;
     fetchCount := S (fetchCount q) |}.

(** Query.fetch: a fetch in flight is joined, not doubled. *)
Definition fetch (now : Z) (q : Query) : Query :=
  if isFetching (state q) && promise q then setCancelRetry false q
  else startRetryer now (if isFetching (state q) then q else dispatch now ActFetch q).

(** QueryObserver.onSubscribe: the observer joins the query, fetches if
    it should, and sets its timer. *)
Definition mount (now : Z) (q : Query) : Query :=
  let q1 := setObservers (observers q ++ [armed now]) q in
  if shouldFetchOnMount now q1 then fetch now q1 else q1.

(** Query.removeObserver: the last observer leaving cancels the retry. *)
Definition unmount (i : nat) (q : Query) : option Query :=
  match observers q !! i with
  | None => None
  | Some _ =>
      let obs := delete i (observers q) in
      let q1 := setObservers obs q in
      Some (match obs with
            | [] => if promise q then setCancelRetry true q1 else q1
            | _ :: _ => q1
            end)
  end.

(** The callback of setInterval, when the timer of observer [i] is due:
    fetch when the page is visible or the interval is to run in the
    background.  The timer goes on, [refetchInterval] ahead. *)
Definition intervalTick (i : nat) (focused : bool) (now : Z) (q : Query) : option Query :=
  match observers q !! i with
  | Some o =>
      if decide (nextTick o = Some now) then
        let q1 := setObservers (<[i := armed now]> (observers q)) q in
        Some (if refetchIntervalInBackground options || focused then fetch now q1 else q1)
      else None
  | None => None
  end.

(** The [refetch] of the observer. *)
Definition refetch (now : Z) (q : Query) : option Query :=
  match observers q with
  | [] => None
  | _ :: _ => Some (fetch now q)
  end.

Definition endCall (q : Query) : Query :=
  {| state := state q; promise := promise q;
     failureCount := failureCount q; retryPending := retryPending q;
     isPaused := isPaused q;
     cancelRetry := cancelRetry q; observers := observers q;
     running := pred (running q); callLog := callLog q; fetchCount := fetchCount q |}.

Definition setRetry (count : nat) (pending : option (Z * string)) (q : Query) : Query :=
  {| state := state q; promise := promise q;
     failureCount := count; retryPending := pending;
     isPaused := false;
     cancelRetry := cancelRetry q; observers := observers q;
     running := running q; callLog := callLog q; fetchCount := fetchCount q |}.

(** The query function fulfils: Retryer resolve, Query.setData. *)
Definition resolve (d : TData) (now : Z) (q : Query) : option Query :=
  match running q with
  | O => None
  | S _ => Some (dispatch now (ActSuccess d now) (endCall q))
  end.

(** The query function rejects: unless the retry was cancelled, the
    Retryer retries while fewer than [retry] failures were counted, after
    [retryDelay]; else the error reaches the query. *)
Definition reject (e : string) (now : Z) (q : Query) : option Query :=
  match running q with
  | O => None
  | S _ =>
      let q1 := endCall q in
      if negb (cancelRetry q1) && Nat.ltb (failureCount q1) (retry options) then
        Some (dispatch now ActFailed
                (setRetry (S (failureCount q1)) (Some (now + retryDelay options, e)) q1))
      else Some (dispatch now (ActError e) q1)
  end.

(** The Retryer goes on after its delay or its pause: the query function
    is called again, unless the retry was cancelled. *)
Definition continueRetry (now : Z) (e : string) (q : Query) : Query :=
  let q1 := setRetry (failureCount q) None q in
  if cancelRetry q then dispatch now (ActError e) q1
  else
    {| state := state q1; promise := promise q1;
       failureCount := failureCount q1; retryPending := None;
       isPaused := false;
       cancelRetry := cancelRetry q1; observers := observers q1;
       running := S (running q1); callLog := now :: callLog q1;
       fetchCount := fetchCount q1 |}.

(** The retry delay elapsed while the page is visible and online. *)
Definition retryDue (now : Z) (q : Query) : option Query :=
  match retryPending q with
  | Some (due, e) =>
      if decide (due = now) then
        if isPaused q then None else Some (continueRetry now e q)
      else None
  | None => None
  end.

(** The retry delay elapsed while the page is hidden or offline: the
    Retryer pauses. *)
Definition retryPause (now : Z) (q : Query) : option Query :=
  match retryPending q with
  | Some (due, e) =>
      if decide (due = now) then
        if isPaused q then None
        else
          Some {| state := state q; promise := promise q;
                  failureCount := failureCount q; retryPending := retryPending q;
                  isPaused := true;
                  cancelRetry := cancelRetry q; observers := observers q;
                  running := running q; callLog := callLog q;
                  fetchCount := fetchCount q |}
      else None
  | None => None
  end.

(** Query.onFocus and Query.onOnline, when the page is visible and online
    again: an observer refetches if the data are stale (the default
    [refetchOnWindowFocus] and [refetchOnReconnect]), and a paused Retryer
    goes on. *)
Definition onFocus (now : Z) (q : Query) : Query :=
  let q1 :=
    match observers q with
    | [] => q
    | _ :: _ => if isStale now q then fetch now q else q
    end in
  match retryPending q1 with
  | Some (_, e) => if isPaused q1 then continueRetry now e q1 else q1
  | None => q1
  end.

Inductive Event : Type :=
  | Mount (now : Z)
  | Unmount (i : nat)
  | IntervalTick (i : nat) (focused : bool) (now : Z)
  | Refetch (now : Z)
  | Resolve (d : TData) (now : Z)
  | Reject (e : string) (now : Z)
  | RetryDue (now : Z)
  | RetryPause (now : Z)
  | Focus (now : Z).

Definition step (ev : Event) (q : Query) : option Query :=
  match ev with
  | Mount now => Some (mount now q)
  | Unmount i => unmount i q
  | IntervalTick i focused now => intervalTick i focused now q
  | Refetch now => refetch now q
  | Resolve d now => resolve d now q
  | Reject e now => reject e now q
  | RetryDue now => retryDue now q
  | RetryPause now => retryPause now q
  | Focus now => Some (onFocus now q)
  end.

Fixpoint steps (evs : list Event) (q : Query) : option Query :=
  match evs with
  | [] => Some q
  | ev :: evs' =>
      match step ev q with
      | Some q' => steps evs' q'
      | None => None
      end
  end.

(** The cache: one query per query key, built on first use. *)
Definition build (key : string) (cache : gmap string Query) : Query :=
  default newQuery (cache !! key).

Definition cacheStep (key : string) (ev : Event) (cache : gmap string Query)
  : option (gmap string Query) :=
  match step ev (build key cache) with
  | Some q' => Some (<[key := q']> cache)
  | None => None
  end.

Fixpoint cacheSteps (evs : list (string * Event)) (cache : gmap string Query)
  : option (gmap string Query) :=
  match evs with
  | [] => Some cache
  | (key, ev) :: evs' =>
      match cacheStep key ev cache with
      | Some cache' => cacheSteps evs' cache'
      | None => None
      end
  end.

(** The query after a call that failed at [failedAt] was retried at
    [due]. *)
Definition retried (failedAt due : Z) (q : Query) : Query :=
  {| state := reducer (state q) ActFailed; promise := promise q;
     failureCount := S (failureCount q); retryPending := None;
     isPaused := false;
     cancelRetry := cancelRetry q;
     observers := map (fun _ => armed failedAt) (observers q);
     running := running q; callLog := due :: callLog q;
     fetchCount := fetchCount q |}.

(** One fetch against a query function whose successive calls take the
    scripted time and settle as scripted, the page being visible and
    online: every rejection is followed by the retry when its delay has
    elapsed. *)
Inductive Outcome : Type :=
  | Fulfilled (d : TData)
  | Rejected (e : string).

Fixpoint settle (script : list (Z * Outcome)) (now : Z) (q : Query) : option Query :=
  match script with
  | [] => Some q
  | (duration, Fulfilled d) :: _ => resolve d (now + duration) q
  | (duration, Rejected e) :: script' =>
      match reject e (now + duration) q with
      | Some q1 =>
          match retryPending q1 with
          | Some (due, _) =>
              match retryDue due q1 with
              | Some q2 => settle script' due q2
              | None => None
              end
          | None => Some q1
          end
      | None => None
      end
  end.

End WithOptions.
End Core.

Arguments QueryState : clear implicits.
Arguments Query : clear implicits.
Arguments Event : clear implicits.
Arguments Outcome : clear implicits.
Arguments Fulfilled {TData} d.
Arguments Rejected {TData} e.

End ReactQuery.

(** ** index.tsx: the query client *)

Module Index.
Import ReactQuery.

(** The [defaultOptions.queries] of [queryClient]; no refetch interval is
    set there. *)
Definition queryClient : QueryOptions :=
  {| retry := 3;
     retryDelay := 1000;
     staleTime := 5 * 60 * 1000;
     cacheTime := 10 * 60 * 1000;
     refetchInterval := None;
     refetchIntervalInBackground := false |}.

End Index.

(** ** Dashboard.tsx: the formatter *)

Module Dashboard.
Import Number.

Record CryptoData : Type := {
  symbol : string;
  name : string;
  price : number;
  change24h : number;
  volume : number;
  marketCap : number;
}.

(** The literal of decimal value [m / 10^k], for small [m] and [k]: both
    are doubles exactly and the division rounds to nearest. *)
Definition decimal (m k : Z) : number := div (ofZ m) (ofZ (10 ^ k)).

(** The result of the mock query function, which never fails. *)
Definition mockData : list CryptoData := Eval vm_compute in
  [ {| symbol := "BTC"; name := "Bitcoin"; price := ofZ 67500; change24h := decimal 24 1;
       volume := ofZ 28000000000; marketCap := ofZ 1320000000000 |};
    {| symbol := "ETH"; name := "Ethereum"; price := ofZ 4350; change24h := decimal 31 1;
       volume := ofZ 15000000000; marketCap := ofZ 523000000000 |};
    {| symbol := "UNI"; name := "Uniswap"; price := decimal 1147 2; change24h := decimal 87 1;
       volume := ofZ 245000000; marketCap := ofZ 8900000000 |};
    {| symbol := "ADA"; name := "Cardano"; price := decimal 52 2; change24h := decimal (-12) 1;
       volume := ofZ 180000000; marketCap := ofZ 18500000000 |};
    {| symbol := "TAO"; name := "Bittensor"; price := decimal 42530 2; change24h := decimal 158 1;
       volume := ofZ 89000000; marketCap := ofZ 3200000000 |} ].

(** The options of [useQuery('cryptoData', ..., { refetchInterval: 30000,
    onSuccess })] over the defaults of the query client. *)
Definition queryKey : string := "cryptoData".

Definition queryOptions : ReactQuery.QueryOptions :=
  {| ReactQuery.retry := ReactQuery.retry Index.queryClient;
     ReactQuery.retryDelay := ReactQuery.retryDelay Index.queryClient;
     ReactQuery.staleTime := ReactQuery.staleTime Index.queryClient;
     ReactQuery.cacheTime := ReactQuery.cacheTime Index.queryClient;
     ReactQuery.refetchInterval := Some 30000;
     ReactQuery.refetchIntervalInBackground :=
       ReactQuery.refetchIntervalInBackground Index.queryClient |}.

Definition formatCurrency (value : number) : completion string :=
  Normal (Intl.format_usd value).

Definition formatLargeNumber (value : number) : completion string :=
  if ge value lit_1e12 then
    let* q := toFixed (div value lit_1e12) 2 in Normal ("$" +:+ q +:+ "T")
  else if ge value lit_1e9 then
    let* q := toFixed (div value lit_1e9) 2 in Normal ("$" +:+ q +:+ "B")
  else if ge value lit_1e6 then
    let* q := toFixed (div value lit_1e6) 2 in Normal ("$" +:+ q +:+ "M")
  else formatCurrency value.

(** What the tier of divisor [c] and suffix [suffix] shows for [value]:
    the quotient as toFixed(2) renders it, which below 10^21 reads back as
    the quotient's hundredths rounded half up, with its sign. *)
Definition rendered_in_tier (value c : number) (suffix : string) : Prop :=
  exists q : string,
    toFixed (div value c) 2 = Normal q /\
    formatLargeNumber value = Normal ("$" +:+ q +:+ suffix) /\
    (below_1e21 (div value c) = true ->
     read_two_decimals q
     = Some (negative (div value c), round_half_up 2 (magnitude (div value c)))).

(** The query of a dashboard mounted at 42 s on data fetched at 2 s by a
    dashboard that has left since. *)
Definition mounted_dashboard : option (ReactQuery.Query (list CryptoData)) :=
  ReactQuery.steps queryOptions
    [ReactQuery.Mount 1000; ReactQuery.Resolve mockData 2000; ReactQuery.Unmount 0;
     ReactQuery.Mount 42000]
    ReactQuery.newQuery.

Definition getPriceChangeColor (change : number) : string :=
  if gt change lit_0 then "success.main"
  else if lt change lit_0 then "error.main"
  else "text.secondary".

End Dashboard.

(** ** react-router

    How [Routes] of react-router (version 6) picks the element for a
    location: a static path matches without regard to case and to trailing
    slashes, and the splat route matches whatever the static ones do not. *)

Module ReactRouter.

Definition lower (c : ascii) : ascii :=
  let n := nat_of_ascii c in
  if Nat.leb 65 n && Nat.leb n 90 then ascii_of_nat (n + 32) else c.

Fixpoint all_slashes (s : string) : bool :=
  match s with
  | EmptyString => true
  | String c s' => Ascii.eqb c "/" && all_slashes s'
  end.

(** [pathname] without the prefix [base], compared without case. *)
Fixpoint strip_prefix (base pathname : string) : option string :=
  match base, pathname with
  | EmptyString, _ => Some pathname
  | String b base', String c pathname' =>
      if Ascii.eqb (lower b) (lower c) then strip_prefix base' pathname' else None
  | String _ _, EmptyString => None
  end.

Fixpoint strip_trailing_slashes (s : string) : string :=
  match s with
  | EmptyString => EmptyString
  | String c s' => if all_slashes s then EmptyString else String c (strip_trailing_slashes s')
  end.

(** The pattern as compiled: its trailing slashes dropped, a leading
    slash ensured, then any number of slashes up to the end. *)
Definition matchPath (pattern pathname : string) : bool :=
  if String.eqb pattern "*" then
    match pathname with
    | String "/" _ => true
    | _ => false
    end
  else
    let stripped := strip_trailing_slashes pattern in
    let base := match stripped with
                | String "/" _ => stripped
                | _ => String "/" stripped
                end in
    match strip_prefix base pathname with
    | Some rest => all_slashes rest
    | None => false
    end.

(** The first route (in rank order) whose path matches. *)
Fixpoint matchRoutes {E : Type} (routes : list (string * E)) (pathname : string) : option E :=
  match routes with
  | [] => None
  | (pattern, element) :: routes' =>
      if matchPath pattern pathname then Some element else matchRoutes routes' pathname
  end.

End ReactRouter.

(** ** App.tsx: the session store and the view router *)

Module App.

(** [isAuthenticated] is the state of the component; [localStorage] is the
    browser's and survives a reload. *)
Record state : Type := {
  isAuthenticated : bool;
  localStorage : gmap string string;
}.

Definition getItem (key : string) (storage : gmap string string) : option string :=
  storage !! key.

(** [!!token] for a string or null. *)
Definition truthy (token : option string) : bool :=
  match token with
  | None => false
  | Some t => negb (String.eqb t "")
  end.

(** The first render, [useState(false)], on a given storage. *)
Definition initial (storage : gmap string string) : state :=
  {| isAuthenticated := false; localStorage := storage |}.

(** The effect that checks the authentication status. *)
Definition checkAuth (s : state) : state :=
  let token := getItem "auth_token" (localStorage s) in
  {| isAuthenticated := truthy token; localStorage := localStorage s |}.

(** Loading the page: the first render and its effect. *)
Definition load (storage : gmap string string) : state := checkAuth (initial storage).

Definition handleLogin (token : string) (s : state) : state :=
  {| isAuthenticated := true;
     localStorage := <["auth_token" := token]> (localStorage s) |}.

Definition handleLogout (s : state) : state :=
  {| isAuthenticated := false;
     localStorage := delete "auth_token" (localStorage s) |}.

Inductive element : Type :=
  | Login
  | Dashboard
  | Navigate (to : string).

(** The routes, the splat route last. *)
Definition routes (isAuthenticated : bool) : list (string * element) :=
  [ ("/login", if negb isAuthenticated then Login else Navigate "/dashboard");
    ("/dashboard", if isAuthenticated then Dashboard else Navigate "/login");
    ("/", Navigate (if isAuthenticated then "/dashboard" else "/login"));
    ("*", Navigate "/") ].

Definition render (isAuthenticated : bool) (pathname : string) : option element :=
  ReactRouter.matchRoutes (routes isAuthenticated) pathname.

(** Rendering until no [Navigate] is left: the location reached and the
    screen shown there; [None] when nothing matches or the fuel runs out. *)
Fixpoint show (fuel : nat) (isAuthenticated : bool) (pathname : string)
  : option (string * element) :=
  match fuel with
  | O => None
  | S fuel' =>
      match render isAuthenticated pathname with
      | Some (Navigate to) => show fuel' isAuthenticated to
      | Some screen => Some (pathname, screen)
      | None => None
      end
  end.

(** What the router shows for a state of the application. *)
Definition view (s : state) (pathname : string) : option (string * element) :=
  show 3 (isAuthenticated s) pathname.

(** The session is authenticated exactly when the check at load time
    finds a token in the storage. *)
Definition consistent (s : state) : Prop :=
  isAuthenticated s = truthy (getItem "auth_token" (localStorage s)).

End App.

(** ** Login.tsx: the mock credential check *)

Module Login.

Record LoginForm : Type := {
  email : string;
  password : string;
}.

Inductive toast : Type :=
  | toast_success (msg : string)
  | toast_error (msg : string).

(** The state of the login component, the toasts shown, and the
    application that [onLogin] updates. *)
Record state : Type := {
  loading : bool;
  error : string;
  toasts : list toast;
  app : App.state;
}.

Definition setLoading (b : bool) (s : state) : state :=
  {| loading := b; error := error s; toasts := toasts s; app := app s |}.

Definition setError (e : string) (s : state) : state :=
  {| loading := loading s; error := e; toasts := toasts s; app := app s |}.

Definition addToast (t : toast) (s : state) : state :=
  {| loading := loading s; error := error s; toasts := toasts s ++ [t]; app := app s |}.

Definition onLogin (token : string) (s : state) : state :=
  {| loading := loading s; error := error s; toasts := toasts s;
     app := App.handleLogin token (app s) |}.

(** The body of the [try] block; [now] is the value of [Date.now()]. *)
Definition authenticate (data : LoginForm) (now : Number.number) (s : state)
  : completion state :=
  if String.eqb (email data) "admin@cryptoanalyzer.com"
     && String.eqb (password data) "admin123"
  then
    let mockToken := "mock-jwt-token-" +:+ Number.toString now in
    Normal (addToast (toast_success "Login successful!") (onLogin mockToken s))
  else Throw (Error "Invalid credentials").

Definition onSubmit (data : LoginForm) (now : Number.number) (s : state) : state :=
  let s1 := setError "" (setLoading true s) in
  let s2 :=
    match authenticate data now s1 with
    | Normal s' => s'
    | Throw _ => addToast (toast_error "Login failed") (setError "Invalid email or password" s1)
    end in
  setLoading false s2.

(** The form filled with the identifier of the demo account. *)
Definition admin_form (secret : string) : LoginForm :=
  {| email := "admin@cryptoanalyzer.com"; password := secret |}.

(** The token that [onSubmit] handed to [onLogin], if it did. *)
Definition token_of (s : state) : option string :=
  App.getItem "auth_token" (App.localStorage (app s)).

End Login.

(** ** Regular expressions

    The regular expressions of the form rules, without groups or
    look-around: [test] is RegExp.prototype.test for a pattern anchored at
    both ends, computed with derivatives, and [Matches] is what a pattern
    denotes. *)

Module RegExp.

Inductive re : Type :=
  | Never
  | Empty
  | Class (p : ascii -> bool)
  | Cat (r1 r2 : re)
  | Alt (r1 r2 : re)
  | Star (r : re).

(** [r+] and [r{2,}] *)
Definition Plus (r : re) : re := Cat r (Star r).
Definition AtLeast2 (r : re) : re := Cat r (Cat r (Star r)).

Fixpoint nullable (r : re) : bool :=
  match r with
  | Never => false
  | Empty => true
  | Class _ => false
  | Cat r1 r2 => nullable r1 && nullable r2
  | Alt r1 r2 => nullable r1 || nullable r2
  | Star _ => true
  end.

Fixpoint derive (c : ascii) (r : re) : re :=
  match r with
  | Never => Never
  | Empty => Never
  | Class p => if p c then Empty else Never
  | Cat r1 r2 =>
      if nullable r1 then Alt (Cat (derive c r1) r2) (derive c r2)
      else Cat (derive c r1) r2
  | Alt r1 r2 => Alt (derive c r1) (derive c r2)
  | Star r1 => Cat (derive c r1) (Star r1)
  end.

Fixpoint test (r : re) (s : string) : bool :=
  match s with
  | EmptyString => nullable r
  | String c s' => test (derive c r) s'
  end.

Inductive Matches : re -> string -> Prop :=
  | MEmpty : Matches Empty ""
  | MClass (p : ascii -> bool) (c : ascii) : p c = true -> Matches (Class p) (String c "")
  | MCat (r1 r2 : re) (s1 s2 : string) :
      Matches r1 s1 -> Matches r2 s2 -> Matches (Cat r1 r2) (s1 +:+ s2)
  | MAltL (r1 r2 : re) (s : string) : Matches r1 s -> Matches (Alt r1 r2) s
  | MAltR (r1 r2 : re) (s : string) : Matches r2 s -> Matches (Alt r1 r2) s
  | MStar0 (r : re) : Matches (Star r) ""
  | MStarS (r : re) (s1 s2 : string) :
      Matches r s1 -> Matches (Star r) s2 -> Matches (Star r) (s1 +:+ s2).

(** Every character of the string is in the class. *)
Fixpoint all_in (p : ascii -> bool) (s : string) : bool :=
  match s with
  | EmptyString => true
  | String c s' => p c && all_in p s'
  end.

End RegExp.

(** ** Login.tsx: the rules of the form

    The fields are registered with react-hook-form (a dependency, not part
    of the front end): a field is checked for [required], then for
    [minLength], then for [pattern], and keeps its first error;
    [handleSubmit] calls [onSubmit] when no field has an error.  The
    length of a value is its number of UTF-16 code units, counted on the
    bytes of its UTF-8 form; the classes of the pattern hold ASCII
    characters only, so that the pattern is tested on the bytes. *)

Module LoginRules.
Import RegExp.

Definition between (lo hi : nat) (c : ascii) : bool :=
  let n := nat_of_ascii c in Nat.leb lo n && Nat.leb n hi.

(** [[A-Z]] under the flag i *)
Definition letter (c : ascii) : bool := between 65 90 c || between 97 122 c.
Definition digit_char (c : ascii) : bool := between 48 57 c.
Definition one_of (cs : string) (c : ascii) : bool :=
  negb (all_in (fun d => negb (Ascii.eqb c d)) cs).

(** [[A-Z0-9._%+-]] and [[A-Z0-9.-]] under the flag i *)
Definition local_char (c : ascii) : bool := letter c || digit_char c || one_of "._%+-" c.
Definition domain_char (c : ascii) : bool := letter c || digit_char c || one_of ".-" c.

(** /^[A-Z0-9._%+-]+@[A-Z0-9.-]+\.[A-Z]{2,}$/i *)
Definition email_pattern : re :=
  Cat (Plus (Class local_char))
    (Cat (Class (Ascii.eqb "@"))
       (Cat (Plus (Class domain_char))
          (Cat (Class (Ascii.eqb "."))
             (AtLeast2 (Class letter))))).

Definition validateEmail (value : string) : option string :=
  if String.eqb value "" then Some "Email is required"
  else if negb (test email_pattern value) then Some "Invalid email address"
  else None.

(** The UTF-16 code units of the character that a byte of UTF-8 starts:
    one, two for a character beyond the basic plane (a lead byte from 240
    on), none for a continuation byte (128 to 191). *)
Definition code_units (c : ascii) : nat :=
  let n := nat_of_ascii c in
  if Nat.ltb n 128 then 1%nat
  else if Nat.ltb n 192 then 0%nat
  else if Nat.ltb n 240 then 1%nat
  else 2%nat.

(** [value.length] *)
Fixpoint utf16_length (value : string) : nat :=
  match value with
  | EmptyString => 0%nat
  | String c value' => (code_units c + utf16_length value')%nat
  end.

Definition validatePassword (value : string) : option string :=
  if String.eqb value "" then Some "Password is required"
  else if Nat.ltb (utf16_length value) 6 then Some "Password must be at least 6 characters"
  else None.

(** [formState.errors] and the component. *)
Record state : Type := {
  emailError : option string;
  passwordError : option string;
  component : Login.state;
}.

Definition handleSubmit (data : Login.LoginForm) (now : Number.number) (s : state) : state :=
  let e := validateEmail (Login.email data) in
  let p := validatePassword (Login.password data) in
  match e, p with
  | None, None =>
      {| emailError := None; passwordError := None;
         component := Login.onSubmit data now (component s) |}
  | _, _ => {| emailError := e; passwordError := p; component := component s |}
  end.

End LoginRules.

(** ** Dashboard.tsx: the component

    The state of the component, its handlers and the rows of its table.
    The component reaches the query through [useQuery] and the application
    through [onLogout]. *)

Module DashboardComponent.
Import Number Dashboard.

Inductive icon : Type := TrendingUp | TrendingDown.

Record change_cell : Type := {
  cell_icon : icon;
  cell_color : string;
  cell_text : string;
}.

(** The cell of the 24h change: the icon, the colour and the text. *)
Definition changeCell (change : number) : completion change_cell :=
  let* fixed := toFixed change 2 in
  Normal {| cell_icon := if gt change lit_0 then TrendingUp else TrendingDown;
            cell_color := getPriceChangeColor change;
            cell_text := (if gt change lit_0 then "+" else "") +:+ fixed +:+ "%" |}.

Record row : Type := {
  row_key : string;
  row_symbol : string;
  row_name : string;
  row_price : string;
  row_change : change_cell;
  row_volume : string;
  row_marketCap : string;
}.

Definition renderRow (crypto : CryptoData) : completion row :=
  let* p := formatCurrency (price crypto) in
  let* c := changeCell (change24h crypto) in
  let* v := formatLargeNumber (volume crypto) in
  let* m := formatLargeNumber (marketCap crypto) in
  Normal {| row_key := symbol crypto; row_symbol := symbol crypto; row_name := name crypto;
            row_price := p; row_change := c; row_volume := v; row_marketCap := m |}.

Fixpoint mapRows (data : list CryptoData) : completion (list row) :=
  match data with
  | [] => Normal []
  | crypto :: data' =>
      let* r := renderRow crypto in
      let* rs := mapRows data' in
      Normal (r :: rs)
  end.

(** [cryptoData?.map(...)] *)
Definition renderRows (cryptoData : option (list CryptoData)) : completion (list row) :=
  match cryptoData with
  | None => Normal []
  | Some data => mapRows data
  end.

(** Reading back the text of a change: an optional plus sign, a rendering
    with two decimals, and the percent sign. *)
Fixpoint without_last (s : string) : string :=
  match s with
  | EmptyString => EmptyString
  | String c EmptyString => EmptyString
  | String c s' => String c (without_last s')
  end.

Definition read_change (text : string) : option (bool * Z) :=
  let body :=
    match text with
    | String c rest => if Ascii.eqb c "+" then rest else text
    | EmptyString => text
    end in
  read_two_decimals (without_last body).

Definition first_char (s : string) : option ascii :=
  match s with
  | EmptyString => None
  | String c _ => Some c
  end.

(** The shape of an amount in dollars: an optional minus sign, the dollar
    sign, one to three digits, groups of a comma and three digits, a point
    and two digits. *)
Fixpoint comma_groups (s : string) : option string :=
  match s with
  | String c1 (String c2 (String c3 (String c4 rest))) =>
      if Ascii.eqb c1 "," && is_digit c2 && is_digit c3 && is_digit c4
      then comma_groups rest else Some s
  | _ => Some s
  end.

Definition leading_digits (s : string) : option string :=
  match s with
  | String c1 rest1 =>
      if is_digit c1 then
        match rest1 with
        | String c2 rest2 =>
            if is_digit c2 then
              match rest2 with
              | String c3 rest3 => if is_digit c3 then Some rest3 else Some rest2
              | EmptyString => Some rest2
              end
            else Some rest1
        | EmptyString => Some rest1
        end
      else None
  | EmptyString => None
  end.

Definition is_fraction (s : string) : bool :=
  match s with
  | String p (String d1 (String d2 EmptyString)) =>
      Ascii.eqb p "." && is_digit d1 && is_digit d2
  | _ => false
  end.

Definition dollar_shape (s : string) : bool :=
  match snd (strip_sign s) with
  | String c rest =>
      Ascii.eqb c "$"
      && match leading_digits rest with
         | Some rest1 =>
             match comma_groups rest1 with
             | Some rest2 => is_fraction rest2
             | None => false
             end
         | None => false
         end
  | EmptyString => false
  end.

(** The component: the anchor of the menu, the time of the last update,
    the toasts shown, the observer of its [useQuery] in the query, and the
    application. *)
Record state : Type := {
  anchorEl : option nat;
  lastUpdate : Z;
  toasts : list Login.toast;
  observer : nat;
  query : ReactQuery.Query (list CryptoData);
  app : App.state;
}.

Definition setQuery (q : ReactQuery.Query (list CryptoData)) (s : state) : state :=
  {| anchorEl := anchorEl s; lastUpdate := lastUpdate s; toasts := toasts s;
     observer := observer s; query := q; app := app s |}.

Definition setLastUpdate (now : Z) (s : state) : state :=
  {| anchorEl := anchorEl s; lastUpdate := now; toasts := toasts s;
     observer := observer s; query := query s; app := app s |}.

Definition setAnchorEl (target : option nat) (s : state) : state :=
  {| anchorEl := target; lastUpdate := lastUpdate s; toasts := toasts s;
     observer := observer s; query := query s; app := app s |}.

Definition addToast (t : Login.toast) (s : state) : state :=
  {| anchorEl := anchorEl s; lastUpdate := lastUpdate s; toasts := toasts s ++ [t];
     observer := observer s; query := query s; app := app s |}.

Definition onLogout (s : state) : state :=
  {| anchorEl := anchorEl s; lastUpdate := lastUpdate s; toasts := toasts s;
     observer := observer s; query := query s; app := App.handleLogout (app s) |}.

(** The first render and the subscription of [useQuery], at [now], on the
    query [q] of the cache. *)
Definition mount (now : Z) (shown : list Login.toast)
    (q : ReactQuery.Query (list CryptoData)) (a : App.state) : state :=
  {| anchorEl := None; lastUpdate := now; toasts := shown;
     observer := length (ReactQuery.observers q);
     query := ReactQuery.mount queryOptions now q; app := a |}.

Definition handleMenuOpen (currentTarget : nat) (s : state) : state :=
  setAnchorEl (Some currentTarget) s.

Definition handleMenuClose (s : state) : state := setAnchorEl None s.

Definition handleLogout (s : state) : state :=
  addToast (Login.toast_success "Logged out successfully") (onLogout (handleMenuClose s)).

(** The click of the Analyze button of a row.  react-hot-toast (a
    dependency, not part of the front end) gives [toast] the methods
    success, error, loading, custom, promise, dismiss and remove;
    [toast.info] is undefined, and the call of it throws. *)
Definition toast_info (msg : string) : completion Login.toast :=
  Throw (TypeError "toast.info is not a function").

Definition handleAnalyze (symbol : string) (s : state) : completion state :=
  let* t := toast_info ("Analyzing " +:+ symbol +:+ "...") in
  Normal (addToast t s).

Definition handleRefresh (now : Z) (s : state) : option state :=
  match ReactQuery.refetch queryOptions now (query s) with
  | Some q' => Some (addToast (Login.toast_success "Data refreshed") (setQuery q' s))
  | None => None
  end.

(** An event of the query; [onSuccess] runs when the query function
    fulfils. *)
Definition onQuery (ev : ReactQuery.Event (list CryptoData)) (s : state) : option state :=
  match ReactQuery.step queryOptions ev (query s) with
  | Some q' =>
      Some (match ev with
            | ReactQuery.Resolve _ now => setLastUpdate now (setQuery q' s)
            | _ => setQuery q' s
            end)
  | None => None
  end.

(** Leaving the screen: the observer of the component leaves the query. *)
Definition unmount (s : state) : option (ReactQuery.Query (list CryptoData)) :=
  ReactQuery.unmount (observer s) (query s).

(** What happens to a mounted dashboard: the clicks, and the events of
    its query.  An error thrown by a handler is reported, and the state
    stays as it was. *)
Inductive action : Type :=
  | MenuOpen (currentTarget : nat)
  | MenuClose
  | Refresh (now : Z)
  | Analyze (symbol : string)
  | QueryEvent (ev : ReactQuery.Event (list CryptoData)).

Definition act (a : action) (s : state) : option state :=
  match a with
  | MenuOpen currentTarget => Some (handleMenuOpen currentTarget s)
  | MenuClose => Some (handleMenuClose s)
  | Refresh now => handleRefresh now s
  | Analyze symbol =>
      Some (match handleAnalyze symbol s with
            | Normal s' => s'
            | Throw _ => s
            end)
  | QueryEvent ev => onQuery ev s
  end.

Fixpoint run (acts : list action) (s : state) : option state :=
  match acts with
  | [] => Some s
  | a :: acts' =>
      match act a s with
      | Some s' => run acts' s'
      | None => None
      end
  end.

(** [isLoading] of [useQuery], and the rows of the table. *)
Definition isLoading (s : state) : bool :=
  match ReactQuery.status (ReactQuery.state (query s)) with
  | ReactQuery.Loading => true
  | _ => false
  end.

Definition rows (s : state) : completion (list row) :=
  renderRows (ReactQuery.data (ReactQuery.state (query s))).

(** No observer leaves the query: the dashboard, and whoever else
    observes the query, stay mounted. *)
Definition stays_mounted (acts : list action) : bool :=
  forallb (fun a => match a with
                    | QueryEvent (ReactQuery.Unmount _) => false
                    | _ => true
                    end) acts.

(** The "Data refreshed" toasts of a list of actions. *)
Fixpoint refreshToasts (acts : list action) : list Login.toast :=
  match acts with
  | [] => []
  | Refresh _ :: acts' => Login.toast_success "Data refreshed" :: refreshToasts acts'
  | _ :: acts' => refreshToasts acts'
  end.

End DashboardComponent.

(** * Properties *)

(** ** The formatter *)

Section Formatter.
Import Number Dashboard.

(** *** Strings of digits *)

Lemma append_String (c : ascii) (a b : string) : String c a +:+ b = String c (a +:+ b).
Proof. reflexivity. Qed.

Lemma append_empty (b : string) : "" +:+ b = b.
Proof. reflexivity. Qed.

Ltac push_append := cbn; rewrite ?append_String, ?append_empty; cbn.

Lemma first_other_units (k : nat) (s : string) :
  first_units k s +:+ other_units k s = s.
Proof.
  revert s; induction k as [|k IH]; intros [|c s]; push_append; try reflexivity.
  f_equal. apply IH.
Qed.

Lemma first_units_app (a r : string) : first_units (String.length a) (a +:+ r) = a.
Proof. induction a as [|c a IH]; push_append; [now destruct r | f_equal; exact IH]. Qed.

Lemma other_units_app (a r : string) : other_units (String.length a) (a +:+ r) = r.
Proof. induction a as [|c a IH]; push_append; [reflexivity | exact IH]. Qed.

Lemma length_append (a b : string) :
  String.length (a +:+ b) = (String.length a + String.length b)%nat.
Proof. induction a as [|c a IH]; push_append; [reflexivity | f_equal; exact IH]. Qed.

Lemma length_first_units (k : nat) (s : string) :
  String.length (first_units k s) = Nat.min k (String.length s).
Proof.
  revert s; induction k as [|k IH]; intros [|c s]; cbn; try reflexivity.
  f_equal. apply IH.
Qed.

Lemma length_zeros (k : nat) : String.length (zeros k) = k.
Proof. induction k as [|k IH]; cbn; [reflexivity | f_equal; exact IH]. Qed.

Lemma all_digits_app (a b : string) :
  all_digits (a +:+ b) = all_digits a && all_digits b.
Proof.
  induction a as [|c a IH]; push_append; [reflexivity |].
  rewrite <- andb_assoc. f_equal. exact IH.
Qed.

Lemma all_digits_zeros (k : nat) : all_digits (zeros k) = true.
Proof. induction k as [|k IH]; cbn; [reflexivity | exact IH]. Qed.

Lemma read_digits_zeros (k : nat) (s : string) :
  read_digits 0 (zeros k +:+ s) = read_digits 0 s.
Proof. induction k as [|k IH]; push_append; [reflexivity | exact IH]. Qed.

Lemma digit_spec (d : Z) :
  0 <= d < 10 ->
  is_digit (digit d) = true /\ Z.of_nat (nat_of_ascii (digit d) - 48) = d.
Proof.
  intros Hd. unfold digit, is_digit.
  assert (Hn : (Z.to_nat d < 10)%nat) by lia.
  rewrite nat_ascii_embedding by lia.
  split; [| lia].
  apply andb_true_intro; split; apply Nat.leb_le; lia.
Qed.

Lemma digits_onto_spec (fuel : nat) :
  forall (n : Z) (acc : string),
    0 <= n < 2 ^ Z.of_nat fuel ->
    read_digits 0 (digits_onto fuel n acc) = read_digits n acc /\
    all_digits (digits_onto fuel n acc) = all_digits acc /\
    (fuel <> O -> String.length acc < String.length (digits_onto fuel n acc))%nat.
Proof.
  induction fuel as [|fuel IH]; intros n acc Hn.
  - simpl in *. assert (n = 0) by lia. subst n. repeat split; congruence.
  - assert (Hmod : 0 <= n mod 10 < 10) by (apply Z.mod_pos_bound; lia).
    destruct (digit_spec _ Hmod) as [Hdig Hval].
    assert (Hdiv : n = 10 * (n / 10) + n mod 10) by (apply Z.div_mod; lia).
    cbn [digits_onto]. destruct (Z.eqb_spec (n / 10) 0) as [Hz | Hnz].
    + cbn [read_digits all_digits String.length]. rewrite Hval, Hdig.
      repeat split; [f_equal; lia | lia].
    + assert (Hq : 0 <= n / 10 < 2 ^ Z.of_nat fuel).
      { split; [apply Z.div_pos; lia |].
        apply Z.div_lt_upper_bound; [lia |].
        rewrite Nat2Z.inj_succ, Z.pow_succ_r in Hn by lia. lia. }
      destruct (IH (n / 10) (String (digit (n mod 10)) acc) Hq) as (Hr & Ha & Hl).
      rewrite Hr, Ha. cbn [read_digits all_digits String.length]. rewrite Hval, Hdig.
      repeat split; [f_equal; lia |].
      intros _. destruct fuel as [|fuel'].
      * change (2 ^ Z.of_nat 0) with 1 in Hq. lia.
      * specialize (Hl ltac:(discriminate)). cbn [String.length] in Hl. lia.
Qed.

Lemma digits_spec (n : Z) :
  0 <= n ->
  read_digits 0 (digits n) = n /\ all_digits (digits n) = true /\
  (1 <= String.length (digits n))%nat.
Proof.
  intros Hn. unfold digits.
  assert (Hb : 0 <= n < 2 ^ Z.of_nat (S (Z.to_nat (Z.log2 n)))).
  { split; [exact Hn |].
    rewrite Nat2Z.inj_succ, Z2Nat.id by apply Z.log2_nonneg.
    destruct (Z.eq_dec n 0) as [-> | Hnz]; [reflexivity |].
    apply Z.log2_spec. lia. }
  destruct (digits_onto_spec _ n "" Hb) as (Hr & Ha & Hl).
  repeat split; [exact Hr | exact Ha |].
  specialize (Hl ltac:(discriminate)). cbn [String.length] in Hl. lia.
Qed.

Lemma other_units_app_S (a r : string) (c : ascii) :
  other_units (S (String.length a)) (a +:+ String c r) = r.
Proof. induction a as [|d a IH]; push_append; [reflexivity | exact IH]. Qed.

Lemma digit_not_minus (c : ascii) : is_digit c = true -> Ascii.eqb c "-" = false.
Proof.
  intros Hc. destruct (Ascii.eqb_spec c "-") as [-> | _]; [discriminate Hc | reflexivity].
Qed.

Lemma magnitude_bounds (x : number) :
  let '(num, den) := magnitude x in 0 <= num /\ 0 < den.
Proof.
  destruct x as [s | s | | s m e]; cbn; try lia.
  destruct (Z.leb_spec 0 e).
  - split; [| lia]. apply Z.mul_nonneg_nonneg; [lia | apply Z.pow_nonneg; lia].
  - split; [lia | apply Z.pow_pos_nonneg; lia].
Qed.

Lemma round_half_up_nonneg (f num den : Z) :
  0 <= f -> 0 <= num -> 0 < den -> 0 <= round_half_up f (num, den).
Proof.
  intros Hf Hn Hd. unfold round_half_up. apply Z.div_pos; [| lia].
  assert (0 <= 10 ^ f) by (apply Z.pow_nonneg; lia). nia.
Qed.

(** Reading a rendering [sign a . b] whose digits [a b] are those of [m]. *)
Lemma read_two_decimals_spec (neg : bool) (m : string) :
  (3 <= String.length m)%nat ->
  all_digits m = true ->
  read_two_decimals ((if neg then "-" else "")
                     +:+ first_units (String.length m - 2) m
                     +:+ "." +:+ other_units (String.length m - 2) m)
  = Some (neg, read_digits 0 m).
Proof.
  intros Hlen Hdig.
  set (a := first_units (String.length m - 2) m).
  set (b := other_units (String.length m - 2) m).
  assert (Hab : a +:+ b = m) by apply first_other_units.
  assert (Hla : String.length a = (String.length m - 2)%nat).
  { unfold a. rewrite length_first_units. lia. }
  assert (Hlb : String.length b = 2%nat).
  { pose proof (length_append a b) as H. rewrite Hab in H. lia. }
  assert (Hda : all_digits a = true /\ all_digits b = true).
  { rewrite <- Hab, all_digits_app in Hdig. now apply andb_prop in Hdig. }
  destruct Hda as [Hda Hdb].
  assert (Hstrip : strip_sign ((if neg then "-" else "") +:+ a +:+ "." +:+ b)
                   = (neg, a +:+ "." +:+ b)).
  { destruct neg; [reflexivity |]. rewrite append_empty.
    destruct a as [|c a']; [cbn in Hla; lia |].
    rewrite append_String. cbn [strip_sign].
    cbn [all_digits] in Hda. apply andb_prop in Hda as [Hc _].
    now rewrite (digit_not_minus c Hc). }
  unfold read_two_decimals. rewrite Hstrip.
  assert (Hk : String.length (a +:+ "." +:+ b) = S (S (S (String.length a)))).
  { rewrite !length_append, Hlb. cbn. lia. }
  rewrite Hk.
  replace (S (S (S (String.length a))) - 3)%nat with (String.length a) by lia.
  replace (S (S (S (String.length a))) - 2)%nat with (S (String.length a)) by lia.
  rewrite first_units_app, other_units_app.
  change ("." +:+ b) with (String "." b).
  rewrite other_units_app_S, Hda, Hdb, Hab.
  replace (Nat.leb 4 (S (S (S (String.length a))))) with true
    by (symmetry; apply Nat.leb_le; lia).
  reflexivity.
Qed.

(** toFixed(2) below 10^21: two decimals, the value rounded half up. *)
Lemma toFixed_two_decimals (x : number) :
  below_1e21 x = true ->
  exists q, toFixed x 2 = Normal q /\
            read_two_decimals q = Some (negative x, round_half_up 2 (magnitude x)).
Proof.
  unfold below_1e21. intros Hx. apply andb_prop in Hx as [Hfin Hlt].
  pose proof (magnitude_bounds x) as Hmag.
  unfold toFixed. rewrite Hfin.
  change ((2 <? 0) || (100 <? 2)) with false. cbn [negb].
  destruct (magnitude x) as [num den] eqn:Emag. destruct Hmag as [Hnum Hden].
  apply Z.ltb_lt in Hlt.
  destruct (Z.leb_spec (10 ^ 21 * den) num) as [Hge | _]; [lia |].
  change (2 =? 0) with false. cbv iota.
  pose proof (round_half_up_nonneg 2 num den ltac:(lia) Hnum Hden) as Hn.
  destruct (digits_spec _ Hn) as (Hread & Hdig & Hlen).
  set (n := round_half_up 2 (num, den)) in *.
  set (k := String.length (digits n)) in *.
  set (m := if Z.of_nat k <=? 2 then zeros (Z.to_nat (2 + 1 - Z.of_nat k)) +:+ digits n
            else digits n).
  assert (Hm : (3 <= String.length m)%nat /\ all_digits m = true /\ read_digits 0 m = n
               /\ Z.to_nat (Z.max (Z.of_nat k) (2 + 1) - 2) = (String.length m - 2)%nat).
  { unfold m. destruct (Z.leb_spec (Z.of_nat k) 2).
    - rewrite length_append, length_zeros, all_digits_app, all_digits_zeros,
        read_digits_zeros, Hdig, Hread. fold k. repeat split; lia.
    - fold k. repeat split; try assumption; lia. }
  destruct Hm as (Hm3 & Hmd & Hmr & Hcut).
  rewrite Hcut. eexists; split; [reflexivity |].
  rewrite (read_two_decimals_spec (negative x) m Hm3 Hmd), Hmr.
  reflexivity.
Qed.

(** *** The order of the tiers *)

Lemma compare_cont_Eq (p q : positive) : Pos.compare_cont Eq p q = (p ?= q)%positive.
Proof. reflexivity. Qed.

(** Below a positive threshold is below every larger one. *)
Lemma ge_threshold_mono (m1 m2 : positive) (e1 e2 : Z) (v : number) :
  ge (S754_finite false m2 e2) (S754_finite false m1 e1) = true ->
  ge v (S754_finite false m1 e1) = false ->
  ge v (S754_finite false m2 e2) = false.
Proof.
  unfold ge, SFleb, SFcompare. intros H21 H1.
  destruct v as [s | [|] | | [|] m e]; try congruence.
  rewrite !compare_cont_Eq in *.
  destruct (Z.compare_spec e1 e2), (Z.compare_spec e1 e), (Z.compare_spec e2 e);
    try lia; try congruence; subst;
    destruct (Pos.compare_spec m1 m2), (Pos.compare_spec m1 m), (Pos.compare_spec m2 m);
    try lia; congruence.
Qed.

Lemma lt_not_ge (v c : number) : lt v c = true -> ge v c = false.
Proof.
  unfold lt, ge, SFltb, SFleb, SFcompare. intros Hlt.
  destruct v as [s | [|] | | [|] m e], c as [s' | [|] | | [|] m' e'];
    try congruence; rewrite !compare_cont_Eq in *;
    destruct (Z.compare_spec e e'), (Z.compare_spec e' e); try lia; try congruence;
    subst; rewrite (Pos.compare_antisym m' m) in Hlt;
    destruct (Pos.compare m' m); cbn in *; congruence.
Qed.

Lemma below_1e6_formatCurrency (v : number) :
  ge v lit_1e6 = false -> formatLargeNumber v = formatCurrency v.
Proof.
  intros H6.
  assert (H9 : ge v lit_1e9 = false)
    by (revert H6; apply ge_threshold_mono; reflexivity).
  assert (H12 : ge v lit_1e12 = false)
    by (revert H9; apply ge_threshold_mono; reflexivity).
  unfold formatLargeNumber. now rewrite H12, H9, H6.
Qed.

Lemma tier_rendered (v c : number) (suffix : string) :
  formatLargeNumber v
  = (let* q := toFixed (div v c) 2 in Normal ("$" +:+ q +:+ suffix)) ->
  rendered_in_tier v c suffix.
Proof.
  intros Heq. unfold rendered_in_tier.
  destruct (toFixed (div v c) 2) as [q | e] eqn:Eq.
  - exists q. repeat split; [exact Heq |].
    intros Hb. destruct (toFixed_two_decimals _ Hb) as (q' & Hq' & Hread).
    congruence.
  - exfalso. unfold toFixed in Eq.
    change ((2 <? 0) || (100 <? 2)) with false in Eq. cbv iota in Eq.
    destruct (negb (isFinite (div v c))); [discriminate |].
    destruct (magnitude (div v c)) as [num den].
    destruct (10 ^ 21 * den <=? num); [discriminate |].
    change (2 =? 0) with false in Eq. cbv iota in Eq. discriminate.
Qed.

(** *** The quotients of the B and M tiers *)

Lemma digits2_pos_lt (p : positive) : Z.pos p < 2 ^ Z.pos (digits2_pos p).
Proof.
  induction p as [p IH | p IH |]; cbn [digits2_pos]; [| | reflexivity];
    rewrite Pos2Z.inj_succ, Z.pow_succ_r by lia; lia.
Qed.

Lemma digits2_pos_le (p : positive) (k : Z) : Z.pos p < 2 ^ k -> Z.pos (digits2_pos p) <= k.
Proof.
  revert k; induction p as [p IH | p IH |]; intros k Hk; cbn [digits2_pos].
  - assert (Hk0 : 0 < k).
    { destruct (Z.ltb_spec 0 k) as [H | H]; [exact H |].
      destruct (Z.eq_dec k 0) as [-> | Hne]; [cbn in Hk; lia |].
      rewrite Z.pow_neg_r in Hk by lia. lia. }
    replace k with (Z.succ (k - 1)) in Hk by lia.
    rewrite Z.pow_succ_r in Hk by lia.
    specialize (IH (k - 1) ltac:(lia)). lia.
  - assert (Hk0 : 0 < k).
    { destruct (Z.ltb_spec 0 k) as [H | H]; [exact H |].
      destruct (Z.eq_dec k 0) as [-> | Hne]; [cbn in Hk; lia |].
      rewrite Z.pow_neg_r in Hk by lia. lia. }
    replace k with (Z.succ (k - 1)) in Hk by lia.
    rewrite Z.pow_succ_r in Hk by lia.
    specialize (IH (k - 1) ltac:(lia)). lia.
  - destruct (Z.ltb_spec 0 k) as [H | H]; [lia |].
    destruct (Z.eq_dec k 0) as [-> | Hne]; [cbn in Hk; lia |].
    rewrite Z.pow_neg_r in Hk by lia. lia.
Qed.

Lemma Zdigits2_le (m k : Z) : 0 <= m < 2 ^ k -> 0 <= k -> Zdigits2 m <= k.
Proof.
  intros [Hm Hlt] Hk. destruct m as [|p|p]; cbn [Zdigits2]; [exact Hk | | lia].
  now apply digits2_pos_le.
Qed.

Lemma shr_1_le (mrs : shr_record) :
  0 <= shr_m mrs -> 0 <= shr_m (shr_1 mrs) <= shr_m mrs.
Proof.
  destruct mrs as [m r t]. cbn [shr_m]. intros Hm.
  destruct m as [|[p | p |]|p]; cbn; lia.
Qed.

Lemma iter_shr_1_le (p : positive) :
  forall mrs, 0 <= shr_m mrs -> 0 <= shr_m (iter_pos shr_1 p mrs) <= shr_m mrs.
Proof.
  induction p as [p IH | p IH |]; intros mrs Hm; cbn [iter_pos].
  - pose proof (shr_1_le mrs Hm) as H1.
    pose proof (IH _ (proj1 H1)) as H2.
    pose proof (IH _ (proj1 H2)) as H3. lia.
  - pose proof (IH _ Hm) as H2.
    pose proof (IH _ (proj1 H2)) as H3. lia.
  - now apply shr_1_le.
Qed.

(** Shifting to the exponent of the format: the mantissa does not grow,
    and the exponent is the larger of the two. *)
Lemma shr_fexp_spec (m e : Z) (l : location) (mrs : shr_record) (e' : Z) :
  0 <= m ->
  shr_fexp prec emax m e l = (mrs, e') ->
  0 <= shr_m mrs <= m /\ e' = Z.max e (fexp prec emax (Zdigits2 m + e)).
Proof.
  intros Hm. unfold shr_fexp, shr.
  assert (Hrec : shr_m (shr_record_of_loc m l) = m) by (now destruct l as [|[| |]]).
  destruct (fexp prec emax (Zdigits2 m + e) - e) as [|n|n] eqn:Hn;
    intros [= <- <-]; rewrite ?Hrec.
  - split; lia.
  - pose proof (iter_shr_1_le n (shr_record_of_loc m l)) as H.
    rewrite Hrec in H. split; [apply H, Hm | lia].
  - split; lia.
Qed.

Lemma round_nearest_even_le (m : Z) (l : location) :
  0 <= m -> 0 <= round_nearest_even m l <= m + 1.
Proof.
  intros Hm. destruct l as [|[| |]]; cbn [round_nearest_even]; try lia.
  destruct (Z.even m); lia.
Qed.

(** A mantissa below 2^54 at an exponent of -43 or less rounds to a
    number below 2^14. *)
Lemma binary_round_aux_small (sx : bool) (mx ex : Z) (lx : location) :
  0 <= mx < 2 ^ 54 -> -1000 <= ex <= -43 ->
  below_1e21 (binary_round_aux prec emax sx mx ex lx) = true.
Proof.
  intros Hmx Hex. unfold binary_round_aux.
  destruct (shr_fexp prec emax mx ex lx) as [mrs1 e1] eqn:E1.
  apply shr_fexp_spec in E1 as [Hm1 He1]; [| lia].
  pose proof (Zdigits2_le mx 54 Hmx ltac:(lia)) as Hd1.
  pose proof (round_nearest_even_le (shr_m mrs1) (loc_of_shr_record mrs1) (proj1 Hm1)) as Hr.
  set (m1 := round_nearest_even (shr_m mrs1) (loc_of_shr_record mrs1)) in *.
  destruct (shr_fexp prec emax m1 e1 loc_Exact) as [mrs2 e2] eqn:E2.
  apply shr_fexp_spec in E2 as [Hm2 He2]; [| lia].
  assert (Hm1' : 0 <= m1 < 2 ^ 55).
  { change (2 ^ 55) with (2 * 2 ^ 54). change (2 ^ 54) with 18014398509481984 in *. lia. }
  pose proof (Zdigits2_le m1 55 Hm1' ltac:(lia)) as Hd2.
  unfold fexp, SpecFloat.emin, prec, emax in He1, He2.
  assert (He2' : e2 <= -40) by lia.
  destruct (shr_m mrs2) as [|m2|m2] eqn:Hm; [reflexivity | | lia].
  destruct (Z.leb_spec e2 (emax - prec)) as [_ | Hbig]; [| unfold emax, prec in Hbig; lia].
  unfold below_1e21. cbn [isFinite magnitude andb].
  destruct (Z.leb_spec 0 e2) as [Hpos | _]; [lia |].
  apply Z.ltb_lt.
  pose proof (Z.pow_pos_nonneg 2 (- e2) ltac:(lia) ltac:(lia)) as Hpow.
  change (2 ^ 55) with 36028797018963968 in Hm1'. nia.
Qed.

(** In a tier whose bounds are ten binary orders apart, the quotient of a
    double by the lower bound is below 1e21. *)
Lemma div_tier_small (v : number) (mc mc' : positive) (ec : Z) :
  digits2_pos mc = 53%positive -> 2 ^ 52 <= Z.pos mc -> -53 <= ec <= -20 ->
  is_double v = true ->
  ge v (S754_finite false mc ec) = true ->
  ge v (S754_finite false mc' (ec + 10)) = false ->
  below_1e21 (div v (S754_finite false mc ec)) = true.
Proof.
  intros Hdc Hmc Hec Hvalid Hge Hlt.
  unfold ge, SFleb, SFcompare in Hge, Hlt.
  destruct v as [s | [|] | | [|] m e]; try discriminate.
  assert (He : ec <= e <= ec + 10).
  { destruct (Z.compare_spec ec e), (Z.compare_spec (ec + 10) e); try discriminate; lia. }
  unfold is_double, valid_binary, bounded, canonical_mantissa in Hvalid.
  apply andb_prop in Hvalid as [Hcanon _]. apply Z.eqb_eq in Hcanon.
  unfold fexp, SpecFloat.emin, prec, emax in Hcanon.
  assert (Hdm : Z.pos (digits2_pos m) = 53) by lia.
  pose proof (digits2_pos_lt m) as Hm. rewrite Hdm in Hm.
  unfold div, SFdiv, SFdiv_core_binary. cbn [Zdigits2]. rewrite Hdm, Hdc.
  unfold fexp, SpecFloat.emin, prec, emax.
  replace (Z.min (Z.max (53 + e - (53 + ec) - 53) (3 - 1024 - 53)) (e - ec))
    with (e - ec - 53) by lia.
  replace (e - ec - (e - ec - 53)) with 53 by lia.
  rewrite Z.shiftl_mul_pow2 by lia.
  pose proof (Z.div_eucl_eq (Z.pos m * 2 ^ 53) (Z.pos mc) ltac:(lia)) as Hdiv.
  pose proof (Z.mod_pos_bound (Z.pos m * 2 ^ 53) (Z.pos mc) ltac:(lia)) as Hmod.
  unfold Z.modulo in Hmod.
  destruct (Z.div_eucl (Z.pos m * 2 ^ 53) (Z.pos mc)) as [q r].
  cbn [xorb]. apply binary_round_aux_small; [| lia].
  change (2 ^ 53) with 9007199254740992 in *.
  change (2 ^ 52) with 4503599627370496 in *.
  change (2 ^ 54) with 18014398509481984. nia.
Qed.

(** C1, as the code has it.  For every input that is not finite the two
    formatters signal no failure and return a string: formatCurrency
    returns $NaN for NaN and the infinity symbol, with its sign, for the
    infinities; formatLargeNumber returns $InfinityT for +Infinity and
    what formatCurrency returns for NaN and -Infinity. *)
Theorem formatters_on_non_finite (v : number) (Hnf : isFinite v = false) :
  formatCurrency v
  = Normal (match v with
            | S754_nan => "$NaN"
            | S754_infinity true => "-$∞"
            | _ => "$∞"
            end) /\
  formatLargeNumber v
  = (match v with
     | S754_infinity false => Normal "$InfinityT"
     | _ => formatCurrency v
     end) /\
  (forall e : error, formatCurrency v <> Throw e /\ formatLargeNumber v <> Throw e).
Proof.
  destruct v as [s | [|] | | s m e]; try discriminate Hnf;
    repeat split; try reflexivity; intros H; discriminate H.
Qed.

Lemma formatters_on_non_finite_witness :
  isFinite PInfinity = false /\
  formatCurrency PInfinity = Normal "$∞" /\
  formatLargeNumber PInfinity = Normal "$InfinityT".
Proof.
  split; [reflexivity |].
  destruct (formatters_on_non_finite PInfinity) as (Hc & Hl & _); [reflexivity |].
  split; [exact Hc | exact Hl].
Defined.

(** C1 fails as stated: on +Infinity formatLargeNumber signals nothing and
    returns a string with the text Infinity in it, and on NaN formatCurrency
    returns a string with the text NaN in it. *)
Lemma non_finite_input_is_rendered :
  isFinite PInfinity = false /\ isFinite NaN = false /\
  (exists s, formatLargeNumber PInfinity = Normal s /\ includes "Infinity" s = true) /\
  (exists s, formatCurrency NaN = Normal s /\ includes "NaN" s = true) /\
  ~ (forall v, isFinite v = false ->
       (exists e, formatCurrency v = Throw e) /\ (exists e, formatLargeNumber v = Throw e)).
Proof.
  split; [reflexivity |]. split; [reflexivity |].
  split; [exists "$InfinityT"; split; reflexivity |].
  split; [exists "$NaN"; split; reflexivity |].
  intros H. destruct (H NaN eq_refl) as [[e He] _]. discriminate He.
Qed.

(** The sign of a quotient is that of its operands. *)
Lemma binary_round_aux_sign (mx ex : Z) (lx : location) :
  negative (binary_round_aux prec emax false mx ex lx) = false.
Proof.
  unfold binary_round_aux.
  destruct (shr_fexp prec emax mx ex lx) as [mrs1 e1].
  destruct (shr_fexp prec emax _ e1 loc_Exact) as [mrs2 e2].
  destruct (shr_m mrs2); [reflexivity | | reflexivity].
  destruct (e2 <=? emax - prec); reflexivity.
Qed.

Lemma div_ge_sign (v : number) (mc : positive) (ec : Z) :
  ge v (S754_finite false mc ec) = true ->
  negative (div v (S754_finite false mc ec)) = false.
Proof.
  intros Hge. destruct v as [s | [|] | | [|] m e]; try discriminate Hge; try reflexivity.
  unfold div, SFdiv. destruct (SFdiv_core_binary _ _ _ _ _ _) as [[mz ez] lz].
  apply binary_round_aux_sign.
Qed.

(** toFixed from 1e21 on, and on what is not finite: Number::toString. *)
Lemma toFixed_large (x : number) :
  below_1e21 x = false -> negative x = false -> toFixed x 2 = Normal (toString x).
Proof.
  unfold below_1e21, toFixed. intros Hbig Hsign.
  change ((2 <? 0) || (100 <? 2)) with false. cbv iota.
  destruct (isFinite x) eqn:Hfin; [| reflexivity]. cbn [negb andb] in *.
  rewrite Hsign. destruct (magnitude x) as [num den] eqn:Emag.
  apply Z.ltb_ge in Hbig. destruct (Z.leb_spec (10 ^ 21 * den) num); [| lia].
  rewrite append_empty.
  destruct x as [s | s | | [|] m e]; try discriminate; reflexivity.
Qed.

(** C2, as the code has it.  formatLargeNumber picks its tier by inclusive
    lower bounds, from the top: from 1e12 on it returns $, the quotient by
    1e12 as toFixed(2) renders it, and T; else from 1e9 on the same with
    1e9 and B; else from 1e6 on the same with 1e6 and M; else what
    formatCurrency returns.  toFixed(2) renders a quotient below 1e21 with
    exactly two decimals, rounded half up, and the quotients of the B and M
    tiers are below 1e21.  In the T tier a quotient that is not below 1e21
    is rendered as Number::toString renders it, in place of the two
    decimals.  For every positive value below 1e6 the result is that of
    formatCurrency. *)
Theorem formatLargeNumber_tiers (v : number) :
  (ge v lit_1e12 = true -> rendered_in_tier v lit_1e12 "T") /\
  (ge v lit_1e12 = true -> below_1e21 (div v lit_1e12) = false ->
   formatLargeNumber v = Normal ("$" +:+ toString (div v lit_1e12) +:+ "T")) /\
  (ge v lit_1e12 = false -> ge v lit_1e9 = true ->
   rendered_in_tier v lit_1e9 "B" /\
   (is_double v = true -> below_1e21 (div v lit_1e9) = true)) /\
  (ge v lit_1e12 = false -> ge v lit_1e9 = false -> ge v lit_1e6 = true ->
   rendered_in_tier v lit_1e6 "M" /\
   (is_double v = true -> below_1e21 (div v lit_1e6) = true)) /\
  (ge v lit_1e6 = false -> formatLargeNumber v = formatCurrency v) /\
  (gt v lit_0 = true -> lt v lit_1e6 = true -> formatLargeNumber v = formatCurrency v).
Proof.
  split; [| split; [| split; [| split; [| split]]]].
  - intros H12. apply tier_rendered. unfold formatLargeNumber. now rewrite H12.
  - intros H12 Hbig. unfold formatLargeNumber. rewrite H12.
    rewrite toFixed_large; [reflexivity | exact Hbig |].
    apply div_ge_sign, H12.
  - intros H12 H9. split.
    + apply tier_rendered. unfold formatLargeNumber. now rewrite H12, H9.
    + intros Hd. apply (div_tier_small v _ 8192000000000000 (-23));
        [reflexivity | lia | lia | exact Hd | exact H9 | exact H12].
  - intros H12 H9 H6. split.
    + apply tier_rendered. unfold formatLargeNumber. now rewrite H12, H9, H6.
    + intros Hd. apply (div_tier_small v _ 8388608000000000 (-33));
        [reflexivity | lia | lia | exact Hd | exact H6 | exact H9].
  - apply below_1e6_formatCurrency.
  - intros _ Hlt. apply below_1e6_formatCurrency, lt_not_ge, Hlt.
Qed.

Lemma formatLargeNumber_tiers_witness :
  ge (ofZ 1320000000000) lit_1e12 = true /\
  rendered_in_tier (ofZ 1320000000000) lit_1e12 "T".
Proof.
  split; [reflexivity |].
  exact (proj1 (formatLargeNumber_tiers (ofZ 1320000000000)) eq_refl).
Defined.

(** C2 fails as stated: 1e33 is finite and at least 1e12, its quotient by
    1e12 is 1e21, and toFixed(2) renders that without decimals. *)
Lemma formatLargeNumber_1e33 :
  isFinite (ofZ (10 ^ 33)) = true /\
  ge (ofZ (10 ^ 33)) lit_1e12 = true /\
  formatLargeNumber (ofZ (10 ^ 33)) = Normal "$1e+21T" /\
  read_two_decimals "1e+21" = None.
Proof. vm_compute. repeat split; reflexivity. Qed.

Example formatLargeNumber_from_1e33 :
  map formatLargeNumber [ofZ (10 ^ 33); ofZ (15 * 10 ^ 32); ofZ (10 ^ 34); PInfinity]
  = [Normal "$1e+21T"; Normal "$1.5e+21T"; Normal "$1e+22T"; Normal "$InfinityT"] /\
  map read_two_decimals ["1e+21"; "1.5e+21"; "1e+22"; "Infinity"] = [None; None; None; None].
Proof. vm_compute. split; reflexivity. Qed.

(** *** The rows of the mock data *)

Example formatCurrency_prices :
  map (fun c => formatCurrency (price c)) mockData
  = [Normal "$67,500.00"; Normal "$4,350.00"; Normal "$11.47"; Normal "$0.52";
     Normal "$425.30"].
Proof. vm_compute. reflexivity. Qed.

Example formatLargeNumber_volumes :
  map (fun c => formatLargeNumber (volume c)) mockData
  = [Normal "$28.00B"; Normal "$15.00B"; Normal "$245.00M"; Normal "$180.00M";
     Normal "$89.00M"].
Proof. vm_compute. reflexivity. Qed.

Example formatLargeNumber_marketCaps :
  map (fun c => formatLargeNumber (marketCap c)) mockData
  = [Normal "$1.32T"; Normal "$523.00B"; Normal "$8.90B"; Normal "$18.50B";
     Normal "$3.20B"].
Proof. vm_compute. reflexivity. Qed.

Example formatLargeNumber_bounds :
  map formatLargeNumber [ofZ 999999; ofZ 1000000; ofZ 999999999; ofZ 1000000000;
                         ofZ 999999999999; ofZ 1000000000000; ofZ (-5000000)]
  = [Normal "$999,999.00"; Normal "$1.00M"; Normal "$1000.00M"; Normal "$1.00B";
     Normal "$1000.00B"; Normal "$1.00T"; Normal "-$5,000,000.00"].
Proof. vm_compute. reflexivity. Qed.

Example getPriceChangeColor_changes :
  map (fun c => getPriceChangeColor (change24h c)) mockData
  = ["success.main"; "success.main"; "success.main"; "error.main"; "success.main"]
  /\ getPriceChangeColor lit_0 = "text.secondary"
  /\ getPriceChangeColor (S754_zero true) = "text.secondary"
  /\ getPriceChangeColor NaN = "text.secondary".
Proof. vm_compute. repeat split; reflexivity. Qed.

(** C8.  For every number [x] that is not NaN, [getPriceChangeColor x] is
    the colour of a positive change, success.main, if and only if [x > 0];
    the colour of a negative change, error.main, if and only if [x < 0];
    and the neutral colour, text.secondary, if and only if [x == 0]. *)
Theorem getPriceChangeColor_sign (x : number) (Hreal : isNaN x = false) :
  (getPriceChangeColor x = "success.main" <-> gt x lit_0 = true) /\
  (getPriceChangeColor x = "error.main" <-> lt x lit_0 = true) /\
  (getPriceChangeColor x = "text.secondary" <-> eq x lit_0 = true).
Proof.
  unfold getPriceChangeColor, gt, lt, eq, SFltb, SFeqb, lit_0.
  destruct x as [s | [|] | | [|] m e]; simpl in *;
    try discriminate Hreal; repeat split; intros H; try reflexivity; discriminate H.
Qed.

Lemma getPriceChangeColor_sign_witness :
  isNaN (ofZ (-12)) = false /\
  ((getPriceChangeColor (ofZ (-12)) = "success.main" <-> gt (ofZ (-12)) lit_0 = true) /\
   (getPriceChangeColor (ofZ (-12)) = "error.main" <-> lt (ofZ (-12)) lit_0 = true) /\
   (getPriceChangeColor (ofZ (-12)) = "text.secondary" <-> eq (ofZ (-12)) lit_0 = true)).
Proof.
  split; [reflexivity | apply (getPriceChangeColor_sign (ofZ (-12))); reflexivity].
Defined.

End Formatter.

(** ** The session store and the view router *)

Section Session.
Import App.

Lemma splat_matches (rest : string) : ReactRouter.matchPath "*" (String "/" rest) = true.
Proof. reflexivity. Qed.

Ltac lower_literals :=
  repeat match goal with
  | |- context [ReactRouter.lower (Ascii ?a ?b ?c ?d ?e ?f ?g ?h)] =>
      let v := eval vm_compute in (ReactRouter.lower (Ascii a b c d e f g h)) in
      change (ReactRouter.lower (Ascii a b c d e f g h)) with v
  end.

Lemma matchPath_static (b : ascii) (base pathname : string) :
  ReactRouter.strip_trailing_slashes (String "/" (String b base)) = String "/" (String b base) ->
  ReactRouter.matchPath (String "/" (String b base)) pathname
  = match ReactRouter.strip_prefix (String "/" (String b base)) pathname with
    | Some rest => ReactRouter.all_slashes rest
    | None => false
    end.
Proof. intros H. unfold ReactRouter.matchPath. rewrite H. reflexivity. Qed.

Lemma matchPath_root (pathname : string) :
  ReactRouter.matchPath "/" pathname
  = match ReactRouter.strip_prefix "/" pathname with
    | Some rest => ReactRouter.all_slashes rest
    | None => false
    end.
Proof. reflexivity. Qed.

(** The static routes exclude each other. *)
Lemma static_routes_disjoint (pathname : string) :
  (ReactRouter.matchPath "/login" pathname = true ->
   ReactRouter.matchPath "/dashboard" pathname = false) /\
  (ReactRouter.matchPath "/" pathname = true ->
   ReactRouter.matchPath "/login" pathname = false /\
   ReactRouter.matchPath "/dashboard" pathname = false).
Proof.
  rewrite matchPath_root, !matchPath_static by reflexivity.
  destruct pathname as [|c1 [|c2 rest]];
    cbn [ReactRouter.strip_prefix ReactRouter.all_slashes]; lower_literals.
  - now split.
  - destruct (Ascii.eqb "/" (ReactRouter.lower c1)); now split.
  - destruct (Ascii.eqb "/" (ReactRouter.lower c1)); [| now split].
    split.
    + destruct (Ascii.eqb_spec "l" (ReactRouter.lower c2)) as [E | Hl]; [| discriminate].
      intros _. rewrite <- E. reflexivity.
    + cbn [ReactRouter.all_slashes].
      destruct (Ascii.eqb_spec c2 "/") as [-> | Hs]; [| cbn [andb]; discriminate].
      intros _. now split.
Qed.

Lemma render_login (a : bool) (pathname : string) :
  ReactRouter.matchPath "/login" pathname = true ->
  render a pathname = Some (if a then Navigate "/dashboard" else Login).
Proof.
  intros H. unfold render, routes. cbn [ReactRouter.matchRoutes]. rewrite H.
  now destruct a.
Qed.

Lemma render_dashboard (a : bool) (pathname : string) :
  ReactRouter.matchPath "/dashboard" pathname = true ->
  render a pathname = Some (if a then Dashboard else Navigate "/login").
Proof.
  intros H. unfold render, routes. cbn [ReactRouter.matchRoutes].
  destruct (ReactRouter.matchPath "/login" pathname) eqn:Hl.
  - apply (proj1 (static_routes_disjoint pathname)) in Hl. congruence.
  - now rewrite H.
Qed.

Lemma render_root (a : bool) (pathname : string) :
  ReactRouter.matchPath "/" pathname = true ->
  render a pathname = Some (Navigate (if a then "/dashboard" else "/login")).
Proof.
  intros H. unfold render, routes. cbn [ReactRouter.matchRoutes].
  destruct (proj2 (static_routes_disjoint pathname) H) as [-> ->]. now rewrite H.
Qed.

Lemma render_unknown (a : bool) (rest : string) :
  ReactRouter.matchPath "/login" (String "/" rest) = false ->
  ReactRouter.matchPath "/dashboard" (String "/" rest) = false ->
  ReactRouter.matchPath "/" (String "/" rest) = false ->
  render a (String "/" rest) = Some (Navigate "/").
Proof.
  intros Hl Hd Hr. unfold render, routes. cbn [ReactRouter.matchRoutes].
  now rewrite Hl, Hd, Hr, splat_matches.
Qed.

(** Every location ends on the screen of the session's state. *)
Lemma show_screen (a : bool) (rest : string) :
  exists loc, show 3 a (String "/" rest) = Some (loc, if a then Dashboard else Login).
Proof.
  set (p := String "/" rest).
  destruct (ReactRouter.matchPath "/login" p) eqn:Hl;
    [| destruct (ReactRouter.matchPath "/dashboard" p) eqn:Hd;
       [| destruct (ReactRouter.matchPath "/" p) eqn:Hr]].
  - cbn [show]. rewrite (render_login a p Hl). destruct a; eexists; reflexivity.
  - cbn [show]. rewrite (render_dashboard a p Hd). destruct a; eexists; reflexivity.
  - cbn [show]. rewrite (render_root a p Hr). destruct a; eexists; reflexivity.
  - cbn [show]. unfold p. rewrite (render_unknown a rest Hl Hd Hr).
    destruct a; eexists; reflexivity.
Qed.

(** C5.  What the router shows depends on the session only through
    [isAuthenticated].  Unauthenticated, a request for the dashboard is
    redirected to /login, where the login screen shows; authenticated, a
    request for the login screen is redirected to /dashboard, where the
    dashboard shows; a path that matches no route is redirected to /, and /
    is redirected to /dashboard or /login by the same rule. *)
Theorem view_router (s : state) (pathname : string) :
  (forall s' : state, isAuthenticated s' = isAuthenticated s -> view s' pathname = view s pathname) /\
  (isAuthenticated s = false -> ReactRouter.matchPath "/dashboard" pathname = true ->
   render (isAuthenticated s) pathname = Some (Navigate "/login") /\
   view s pathname = Some ("/login", Login)) /\
  (isAuthenticated s = true -> ReactRouter.matchPath "/login" pathname = true ->
   render (isAuthenticated s) pathname = Some (Navigate "/dashboard") /\
   view s pathname = Some ("/dashboard", Dashboard)) /\
  (forall rest, pathname = String "/" rest ->
   ReactRouter.matchPath "/login" pathname = false ->
   ReactRouter.matchPath "/dashboard" pathname = false ->
   ReactRouter.matchPath "/" pathname = false ->
   render (isAuthenticated s) pathname = Some (Navigate "/") /\
   render (isAuthenticated s) "/"
   = Some (Navigate (if isAuthenticated s then "/dashboard" else "/login")) /\
   view s pathname
   = Some (if isAuthenticated s then ("/dashboard", Dashboard) else ("/login", Login))).
Proof.
  unfold view. split; [| split; [| split]].
  - intros s' ->. reflexivity.
  - intros Ha Hm. rewrite Ha. split; [now apply render_dashboard |].
    cbn [show]. rewrite (render_dashboard false pathname Hm). reflexivity.
  - intros Ha Hm. rewrite Ha. split; [now apply render_login |].
    cbn [show]. rewrite (render_login true pathname Hm). reflexivity.
  - intros rest -> Hl Hd Hr. split; [now apply render_unknown |].
    split; [now destruct (isAuthenticated s) |].
    cbn [show]. rewrite (render_unknown _ rest Hl Hd Hr).
    now destruct (isAuthenticated s).
Qed.

Lemma view_router_witness :
  view (handleLogout (initial ∅)) "/dashboard/" = Some ("/login", Login) /\
  view (handleLogin "t" (initial ∅)) "/Login" = Some ("/dashboard", Dashboard) /\
  view (handleLogin "t" (initial ∅)) "/markets" = Some ("/dashboard", Dashboard).
Proof.
  split; [| split].
  - apply (view_router (handleLogout (initial ∅)) "/dashboard/"); reflexivity.
  - apply (view_router (handleLogin "t" (initial ∅)) "/Login"); reflexivity.
  - apply (proj2 (proj2 (proj2 (view_router (handleLogin "t" (initial ∅)) "/markets")))
             "markets"); reflexivity.
Defined.

(** C9.  [handleLogout] never fails; after it the session is absent, in
    the component and in the storage, whatever the state before; doing it
    twice is doing it once; and the router then shows the login screen for
    every location. *)
Theorem handleLogout_idempotent (s : state) :
  isAuthenticated (handleLogout s) = false /\
  getItem "auth_token" (localStorage (handleLogout s)) = None /\
  handleLogout (handleLogout s) = handleLogout s /\
  (getItem "auth_token" (localStorage s) = None ->
   localStorage (handleLogout s) = localStorage s) /\
  (forall rest, exists loc, view (handleLogout s) (String "/" rest) = Some (loc, Login)) /\
  view (handleLogout s) "/dashboard" = Some ("/login", Login) /\
  load (localStorage (handleLogout s)) = handleLogout s.
Proof.
  unfold handleLogout, getItem, view, load, checkAuth, initial; cbn.
  repeat split.
  - apply lookup_delete_eq.
  - f_equal. apply delete_delete_eq.
  - intros Hnone. now apply delete_id.
  - intros rest. apply (show_screen false rest).
  - f_equal. unfold getItem. now rewrite lookup_delete_eq.
Qed.

(** C10.  [handleLogin ""] authenticates the session, so the dashboard
    shows, while the storage holds the empty string, which the check at
    load time takes for no token: the state is not consistent with the
    storage, and after a reload the session is unauthenticated and the
    dashboard is redirected to the login screen. *)
Theorem handleLogin_empty_token (s : state) :
  isAuthenticated (handleLogin "" s) = true /\
  view (handleLogin "" s) "/dashboard" = Some ("/dashboard", Dashboard) /\
  getItem "auth_token" (localStorage (handleLogin "" s)) = Some "" /\
  ~ consistent (handleLogin "" s) /\
  isAuthenticated (load (localStorage (handleLogin "" s))) = false /\
  view (load (localStorage (handleLogin "" s))) "/dashboard" = Some ("/login", Login).
Proof.
  unfold consistent, load, checkAuth, initial, view, handleLogin, getItem; cbn.
  rewrite lookup_insert_eq. cbn. repeat split; try reflexivity. discriminate.
Qed.

End Session.

(** ** The login form *)

Section Credentials.
Import Login.

(** C4.  With the identifier admin@cryptoanalyzer.com and the secret
    admin123, [onSubmit] hands a token to [onLogin], which stores it and
    authenticates the session, and the router leaves the login screen for
    the dashboard.  With the secret wrong, [onSubmit] reports the failure
    on the login screen and leaves the application, its storage and what
    the router shows as they were. *)
Theorem onSubmit_credentials (now : Number.number) (s : state) :
  (let s' := onSubmit (admin_form "admin123") now s in
   token_of s' = Some ("mock-jwt-token-" +:+ Number.toString now) /\
   App.isAuthenticated (app s') = true /\
   App.view (app s') "/login" = Some ("/dashboard", App.Dashboard) /\
   error s' = "" /\
   toasts s' = (toasts s ++ [toast_success "Login successful!"])%list) /\
  (let s' := onSubmit (admin_form "wrong") now s in
   app s' = app s /\
   (forall pathname, App.view (app s') pathname = App.view (app s) pathname) /\
   error s' = "Invalid email or password" /\
   toasts s' = (toasts s ++ [toast_error "Login failed"])%list /\
   loading s' = false).
Proof.
  split; cbn; repeat split.
  unfold token_of, App.getItem. cbn. apply lookup_insert_eq.
Qed.

Example onSubmit_demo :
  let start := {| loading := false; error := ""; toasts := []; app := App.load ∅ |} in
  token_of (onSubmit (admin_form "admin123") (Number.ofZ 1700000000000) start)
  = Some "mock-jwt-token-1700000000000" /\
  token_of (onSubmit (admin_form "wrong") (Number.ofZ 1700000000000) start) = None /\
  App.view (app (onSubmit (admin_form "wrong") (Number.ofZ 1700000000000) start)) "/login"
  = Some ("/login", App.Login).
Proof. vm_compute. repeat split; reflexivity. Qed.

End Credentials.

(** ** The query cache *)

Section QueryCache.
Import ReactQuery.
Context {TData : Type}.
Variable options : QueryOptions.

Abbreviation Query := (Query TData).
Abbreviation Event := (Event TData).

Lemma single_flight_new : single_flight (@newQuery TData).
Proof. unfold single_flight; cbn. repeat split; (lia || congruence). Qed.

(** [single_flight] looks at the state, the promise, the pending retry and
    the running calls only. *)
Lemma single_flight_ext (q q' : Query) :
  isFetching (state q') = isFetching (state q) -> promise q' = promise q ->
  retryPending q' = retryPending q -> running q' = running q ->
  single_flight q -> single_flight q'.
Proof. unfold single_flight. intros -> -> -> ->. exact (fun H => H). Qed.

Lemma single_flight_fetch (now : Z) (q : Query) :
  single_flight q -> single_flight (fetch options now q).
Proof.
  intros (Hle & Hrun & Hwait). unfold fetch.
  destruct (isFetching (state q) && promise q) eqn:Hjoin.
  - exact (conj Hle (conj Hrun Hwait)).
  - assert (Hz : running q = O).
    { destruct (Nat.eq_dec (running q) 1) as [H1 | H1]; [| lia].
      destruct (Hrun H1) as (Hf & Hp & _). rewrite Hf, Hp in Hjoin. discriminate. }
    unfold single_flight, startRetryer.
    destruct (isFetching (state q)) eqn:Hf; cbn; rewrite Hz, ?Hf;
      repeat split; (lia || congruence).
Qed.

Lemma single_flight_continue (now due : Z) (e : string) (q : Query) :
  single_flight q -> retryPending q = Some (due, e) ->
  single_flight (continueRetry options now e q).
Proof.
  intros (Hle & Hrun & Hwait) Hrp.
  destruct (Hwait ltac:(congruence)) as (Hf & Hp & Hr).
  unfold continueRetry. destruct (cancelRetry q);
    unfold single_flight; cbn; rewrite Hr, ?Hf, ?Hp;
    repeat split; (lia || congruence).
Qed.

Lemma single_flight_step (ev : Event) (q q' : Query) :
  single_flight q -> step options ev q = Some q' -> single_flight q'.
Proof.
  intros Hq Hstep.
  destruct ev as [now | i | i focused now | now | d now | e now | now | now | now];
    cbn [step] in Hstep.
  - injection Hstep as <-. unfold mount.
    destruct (shouldFetchOnMount _ _ _); [apply single_flight_fetch |]; exact Hq.
  - unfold unmount in Hstep. destruct (observers q !! i); [| discriminate].
    injection Hstep as <-.
    destruct (delete i (observers q)); [destruct (promise q) |]; exact Hq.
  - unfold intervalTick in Hstep.
    destruct (observers q !! i) as [o |]; [| discriminate].
    destruct (decide (nextTick o = Some now)); [| discriminate].
    injection Hstep as <-.
    destruct (refetchIntervalInBackground options || focused);
      [apply single_flight_fetch |]; exact Hq.
  - unfold refetch in Hstep. destruct (observers q); [discriminate |].
    injection Hstep as <-. apply single_flight_fetch, Hq.
  - unfold resolve in Hstep. destruct Hq as (Hle & Hrun & Hwait).
    destruct (running q) as [|[|r]] eqn:Hr; [discriminate | | lia].
    injection Hstep as <-. destruct (Hrun eq_refl) as (_ & Hp & Hrp).
    unfold single_flight; cbn. rewrite Hr, Hrp. repeat split; (lia || congruence).
  - unfold reject in Hstep. destruct Hq as (Hle & Hrun & Hwait).
    destruct (running q) as [|[|r]] eqn:Hr; [discriminate | | lia].
    destruct (Hrun eq_refl) as (Hf & Hp & Hrp).
    destruct (negb _ && Nat.ltb _ _); injection Hstep as <-;
      unfold single_flight; cbn; rewrite Hr, ?Hrp, ?Hf, ?Hp;
      repeat split; (lia || congruence).
  - unfold retryDue in Hstep.
    destruct (retryPending q) as [[due e] |] eqn:Hrp; [| discriminate].
    destruct (decide (due = now)); [| discriminate].
    destruct (isPaused q); [discriminate |].
    injection Hstep as <-. exact (single_flight_continue now due e q Hq Hrp).
  - unfold retryPause in Hstep.
    destruct (retryPending q) as [[due e] |] eqn:Hrp; [| discriminate].
    destruct (decide (due = now)); [| discriminate].
    destruct (isPaused q); [discriminate |].
    injection Hstep as <-. revert Hq. apply single_flight_ext; cbn; congruence.
  - injection Hstep as <-. unfold onFocus.
    set (q1 := match observers q with
               | [] => q
               | _ :: _ => if isStale options now q then fetch options now q else q
               end).
    assert (Hq1 : single_flight q1).
    { unfold q1. destruct (observers q); [exact Hq |].
      destruct (isStale options now q); [apply single_flight_fetch |]; exact Hq. }
    destruct (retryPending q1) as [[due e] |] eqn:Hrp; [| exact Hq1].
    destruct (isPaused q1); [| exact Hq1].
    exact (single_flight_continue now due e q1 Hq1 Hrp).
Qed.

Lemma single_flight_steps (evs : list Event) :
  forall q q' : Query, single_flight q -> steps options evs q = Some q' -> single_flight q'.
Proof.
  induction evs as [|ev evs IH]; intros q q' Hq Hsteps; cbn [steps] in Hsteps.
  - now injection Hsteps as <-.
  - destruct (step options ev q) as [q1 |] eqn:Hstep; [| discriminate].
    exact (IH q1 q' (single_flight_step ev q q1 Hq Hstep) Hsteps).
Qed.

Lemma single_flight_build (key : string) (cache : gmap string Query) :
  (forall k q, cache !! k = Some q -> single_flight q) -> single_flight (build key cache).
Proof.
  intros Hcache. unfold build. destruct (cache !! key) as [q |] eqn:Hq; cbn.
  - exact (Hcache key q Hq).
  - apply single_flight_new.
Qed.

(** Every query of a cache reached from one whose queries are in single
    flight is in single flight. *)
Lemma single_flight_cache (evs : list (string * Event)) :
  forall cache cache' : gmap string Query,
    (forall key q, cache !! key = Some q -> single_flight q) ->
    cacheSteps options evs cache = Some cache' ->
    forall key q, cache' !! key = Some q -> single_flight q.
Proof.
  induction evs as [|[k ev] evs IH]; intros cache cache' Hcache Hsteps;
    cbn [cacheSteps] in Hsteps.
  - now injection Hsteps as <-.
  - unfold cacheStep in Hsteps.
    destruct (step options ev (build k cache)) as [q1 |] eqn:Hstep; [| discriminate].
    apply (IH (<[k := q1]> cache) cache'); [| exact Hsteps].
    intros key q Hlook. destruct (decide (k = key)) as [-> | Hne].
    + rewrite lookup_insert_eq in Hlook. injection Hlook as <-.
      apply (single_flight_step ev (build key cache) q1); [| exact Hstep].
      now apply single_flight_build.
    + rewrite lookup_insert_ne in Hlook by exact Hne. exact (Hcache key q Hlook).
Qed.

(** A fetch starts at most one call, and none while the query fetches. *)
Lemma fetchCount_fetch (now : Z) (q : Query) :
  fetchCount (fetch options now q)
  = if isFetching (state q) && promise q then fetchCount q else S (fetchCount q).
Proof.
  unfold fetch. destruct (isFetching (state q) && promise q); [reflexivity |].
  now destruct (isFetching (state q)).
Qed.

Lemma fetching_fetch (now : Z) (q : Query) :
  isFetching (state (fetch options now q)) = true /\ promise (fetch options now q) = true.
Proof.
  unfold fetch. destruct (isFetching (state q)) eqn:Hf, (promise q) eqn:Hp; cbn;
    rewrite ?Hf, ?Hp; split; reflexivity.
Qed.

Lemma mount_twice (t1 t2 : Z) (q : Query) :
  (fetchCount (mount options t2 (mount options t1 q)) <= S (fetchCount q))%nat.
Proof.
  unfold mount at 2.
  destruct (shouldFetchOnMount options t1 _) eqn:H1.
  - set (q1 := fetch options t1 _).
    assert (Hq1 : isFetching (state q1) = true /\ promise q1 = true) by apply fetching_fetch.
    assert (Hc1 : (fetchCount q1 <= S (fetchCount q))%nat).
    { unfold q1. rewrite fetchCount_fetch. cbn.
      destruct (isFetching (state q) && promise q); lia. }
    unfold mount. destruct (shouldFetchOnMount options t2 _); [| cbn; lia].
    rewrite fetchCount_fetch. cbn. destruct Hq1 as [-> ->]. cbn. lia.
  - unfold mount. destruct (shouldFetchOnMount options t2 _); [| cbn; lia].
    rewrite fetchCount_fetch. cbn.
    destruct (isFetching (state q) && promise q); lia.
Qed.

Lemma mount_fresh (t2 : Z) (q : Query) :
  0 < dataUpdatedAt (state q) ->
  isInvalidated (state q) = false ->
  t2 < dataUpdatedAt (state q) + staleTime options ->
  mount options t2 q = setObservers (observers q ++ [armed options t2]) q.
Proof.
  intros Hpos Hinv Hfresh. unfold mount.
  assert (Hno : shouldFetchOnMount options t2
                  (setObservers (observers q ++ [armed options t2]) q) = false).
  { unfold shouldFetchOnMount, shouldLoadOnMount, shouldRefetchOnMount, isStale. cbn.
    rewrite Hinv.
    replace (dataUpdatedAt (state q) =? 0) with false by (symmetry; apply Z.eqb_neq; lia).
    replace (Z.max (dataUpdatedAt (state q) + staleTime options - t2) 0 =? 0) with false
      by (symmetry; apply Z.eqb_neq; lia).
    now rewrite andb_false_r. }
  now rewrite Hno.
Qed.

Lemma lookup_rearmed (now : Z) (obs : list Observer) (i : nat) (o : Observer) :
  obs !! i = Some o -> map (fun _ => armed options now) obs !! i = Some (armed options now).
Proof. intros H. change (map ?f obs) with (f <$> obs). now rewrite list_lookup_fmap, H. Qed.

(** After a fetch the timer of an observer is as it was, or set anew. *)
Lemma observers_fetch (now : Z) (q : Query) (i : nat) :
  observers q !! i = Some (armed options now) ->
  observers (fetch options now q) !! i = Some (armed options now).
Proof.
  intros Hi. unfold fetch.
  destruct (isFetching (state q)) eqn:Hf, (promise q); cbn; try exact Hi;
    now apply (lookup_rearmed now _ i (armed options now)).
Qed.

End QueryCache.

(** ** The retries *)

Section Retries.
Import ReactQuery.
Context {TData : Type}.
Variable options : QueryOptions.

Abbreviation Query := (Query TData).

(** A rejected call that may be retried is followed, [retryDelay] after
    it failed, by the next call. *)
Lemma settle_rejected (script : list (Z * Outcome TData)) (d : Z) (e : string)
    (now : Z) (q : Query) :
  running q <> O -> cancelRetry q = false ->
  (failureCount q < retry options)%nat ->
  settle options ((d, Rejected e) :: script) now q
  = settle options script (now + d + retryDelay options)
      (retried options (now + d) (now + d + retryDelay options) q).
Proof.
  intros Hrun Hcancel Hcount. cbn [settle]. unfold reject.
  destruct (running q) as [|r] eqn:Hr; [congruence |].
  apply Nat.ltb_lt in Hcount. cbn -[Nat.ltb]. rewrite Hcancel, Hcount. cbn.
  unfold retryDue, continueRetry. cbn. rewrite decide_True by reflexivity. rewrite Hcancel.
  unfold retried. cbn. rewrite Hr, ?Hcancel. reflexivity.
Qed.

(** A rejected call after [retry] failures ends the fetch in error. *)
Lemma settle_exhausted (script : list (Z * Outcome TData)) (d : Z) (e : string)
    (now : Z) (q : Query) :
  running q <> O -> retryPending q = None ->
  failureCount q = retry options ->
  settle options ((d, Rejected e) :: script) now q
  = Some (dispatch options (now + d) (ActError e) (endCall q)).
Proof.
  intros Hrun Hwait Hcount. cbn [settle]. unfold reject.
  destruct (running q) as [|r] eqn:Hr; [congruence |].
  rewrite <- Hcount. cbn -[Nat.ltb]. rewrite Nat.ltb_irrefl, andb_false_r. cbn.
  now rewrite Hwait.
Qed.

Lemma settle_fulfilled (script : list (Z * Outcome TData)) (d : Z) (data : TData)
    (now : Z) (q : Query) :
  running q <> O ->
  settle options ((d, Fulfilled data) :: script) now q
  = Some (dispatch options (now + d) (ActSuccess data (now + d)) (endCall q)).
Proof.
  intros Hrun. cbn [settle]. unfold resolve.
  destruct (running q) as [|r] eqn:Hr; [congruence | reflexivity].
Qed.

End Retries.

Section CryptoData.
Import ReactQuery Dashboard.

Abbreviation Query := (Query (list CryptoData)).
Abbreviation Event := (Event (list CryptoData)).

(** C6.  In every cache reached from the empty one, no query has more
    than one call of its query function running.  Two subscriptions in a
    row to the same key start at most one fetch, the second joining the
    fetch of the first; and a subscription that finds data younger than
    the stale time starts none. *)
Theorem cache_single_flight (evs : list (string * Event)) (cache : gmap string Query)
    (Hreach : cacheSteps queryOptions evs ∅ = Some cache) :
  (forall key q, cache !! key = Some q -> (running q <= 1)%nat) /\
  (forall key t1 t2,
     let q := build key cache in
     let q2 := mount queryOptions t2 (mount queryOptions t1 q) in
     (fetchCount q2 <= S (fetchCount q))%nat /\ (running q2 <= 1)%nat) /\
  (forall key d t1 t t2 q1,
     let q := build key cache in
     resolve queryOptions d t (mount queryOptions t1 q) = Some q1 ->
     0 < t -> t2 < t + staleTime queryOptions ->
     let q2 := mount queryOptions t2 q1 in
     fetchCount q2 = fetchCount q1 /\
     (fetchCount q2 <= S (fetchCount q))%nat /\
     running q2 = O).
Proof.
  assert (Hcache : forall key q, cache !! key = Some q -> single_flight q).
  { apply (single_flight_cache queryOptions evs ∅ cache); [| exact Hreach].
    intros key q Hq. rewrite lookup_empty in Hq. discriminate. }
  split; [| split].
  - intros key q Hq. apply (Hcache key q Hq).
  - intros key t1 t2 q q2. split; [apply mount_twice |].
    assert (Hq2 : single_flight q2).
    { apply (single_flight_step queryOptions (Mount t2) (mount queryOptions t1 q));
        [| reflexivity].
      apply (single_flight_step queryOptions (Mount t1) q); [| reflexivity].
      apply single_flight_build, Hcache. }
    apply Hq2.
  - intros key d t1 t t2 q1 q Hres Ht Hfresh q2.
    assert (Hq : single_flight q) by apply single_flight_build, Hcache.
    assert (Hm : single_flight (mount queryOptions t1 q))
      by (apply (single_flight_step queryOptions (Mount t1) q); [exact Hq | reflexivity]).
    assert (Hc1 : (fetchCount (mount queryOptions t1 q) <= S (fetchCount q))%nat).
    { unfold mount. destruct (shouldFetchOnMount _ _ _); [| cbn; lia].
      rewrite fetchCount_fetch. cbn. destruct (isFetching (state q) && promise q); lia. }
    unfold resolve in Hres.
    destruct Hm as (Hle & _).
    destruct (running (mount queryOptions t1 q)) as [|[|r]] eqn:Hr; [discriminate | | lia].
    injection Hres as <-.
    unfold q2. rewrite mount_fresh; [| exact Ht | reflexivity | exact Hfresh].
    cbn. rewrite Hr.
    split; [reflexivity | split; [exact Hc1 | reflexivity]].
Qed.

Lemma cache_single_flight_witness :
  let evs : list (string * Event) :=
    [(queryKey, Mount 1000); (queryKey, Mount 1200); (queryKey, Reject "offline" 2000);
     (queryKey, RetryDue 3000); (queryKey, Resolve mockData 4000); (queryKey, Mount 5000)] in
  let cache := default ∅ (cacheSteps queryOptions evs ∅) in
  cacheSteps queryOptions evs ∅ = Some cache /\
  (forall key q, cache !! key = Some q -> (running q <= 1)%nat) /\
  fetchCount (build queryKey cache) = 1%nat /\
  callLog (build queryKey cache) = [3000; 1000].
Proof.
  intros evs cache.
  assert (Hreach : cacheSteps queryOptions evs ∅ = Some cache) by (vm_compute; reflexivity).
  split; [exact Hreach |].
  split; [exact (proj1 (cache_single_flight evs cache Hreach)) |].
  split; vm_compute; reflexivity.
Defined.

(** The dashboard of [mounted_dashboard]: mounted on data 40 s old, it
    started no fetch, and its timer is due 30 s after the mount. *)
Lemma mounted_dashboard_state :
  exists q,
    mounted_dashboard = Some q /\
    (observers q !! 0%nat = Some {| nextTick := Some 72000 |}) /\
    isFetching (state q) = false /\
    isStale queryOptions 72000 q = false.
Proof. eexists. split; [vm_compute; reflexivity |]. repeat split. Qed.







End CryptoData.

(** * More properties *)

(** ** The session store across reloads *)

Section SessionStore.
Import App.

(** X1.  A login is kept across a reload exactly when the token is not
    empty: after [handleLogin] the storage holds the token, and loading the
    page on that storage gives an authenticated session if and only if the
    token is not the empty string, in which case the reloaded state is the
    state after the login. *)
Theorem handleLogin_reload (token : string) (s : state) :
  getItem "auth_token" (localStorage (handleLogin token s)) = Some token /\
  isAuthenticated (load (localStorage (handleLogin token s))) = negb (String.eqb token "") /\
  (String.eqb token "" = false ->
   load (localStorage (handleLogin token s)) = handleLogin token s) /\
  (consistent (handleLogin token s) <-> String.eqb token "" = false).
Proof.
  unfold consistent, load, checkAuth, initial, handleLogin, getItem; cbn.
  rewrite lookup_insert_eq. cbn.
  repeat split.
  - intros ->. reflexivity.
  - intros H. now destruct (String.eqb token "").
  - intros ->. reflexivity.
Qed.

(** X2.  [handleLogin] and [handleLogout] touch the key auth_token only:
    every other key of the storage keeps its value. *)
Theorem session_storage_frame (key token : string) (s : state)
    (Hother : key <> "auth_token") :
  getItem key (localStorage (handleLogin token s)) = getItem key (localStorage s) /\
  getItem key (localStorage (handleLogout s)) = getItem key (localStorage s) /\
  getItem key (localStorage (load (localStorage s))) = getItem key (localStorage s).
Proof.
  unfold getItem, handleLogin, handleLogout, load, checkAuth, initial; cbn.
  rewrite lookup_insert_ne, lookup_delete_ne by congruence. repeat split.
Qed.

Lemma session_storage_frame_witness :
  getItem "theme" (localStorage (handleLogin "t" (initial {["theme" := "dark"]})))
  = Some "dark" /\
  getItem "theme" (localStorage (handleLogout (initial {["theme" := "dark"]})))
  = Some "dark".
Proof.
  destruct (session_storage_frame "theme" "t" (initial {["theme" := "dark"]}))
    as (Hin & Hout & _); [discriminate |].
  split; [rewrite Hin | rewrite Hout]; reflexivity.
Defined.

(** X3.  The last of login and logout wins: a logout after a login is the
    logout, a login after a logout or after another login is the login. *)
Theorem session_last_wins (t1 t2 : string) (s : state) :
  handleLogout (handleLogin t1 s) = handleLogout s /\
  handleLogin t2 (handleLogout s) = handleLogin t2 s /\
  handleLogin t2 (handleLogin t1 s) = handleLogin t2 s.
Proof.
  unfold handleLogin, handleLogout; cbn. repeat split; f_equal.
  - apply delete_insert_eq.
  - apply insert_delete_eq.
  - apply insert_insert_eq.
Qed.

End SessionStore.

(** ** The router as a gate *)

Section Gate.
Import App.

Lemma render_cases (a : bool) (pathname : string) (e : element) :
  render a pathname = Some e ->
  e = (if a then Dashboard else Login) \/ exists to, e = Navigate to.
Proof.
  unfold render, routes. cbn [ReactRouter.matchRoutes].
  destruct (ReactRouter.matchPath "/login" pathname);
    [| destruct (ReactRouter.matchPath "/dashboard" pathname);
       [| destruct (ReactRouter.matchPath "/" pathname);
          [| destruct (ReactRouter.matchPath "*" pathname)]]];
    intros [= <-]; destruct a; cbn; eauto.
Qed.

Lemma show_sound (fuel : nat) :
  forall (a : bool) (pathname loc : string) (screen : element),
    show fuel a pathname = Some (loc, screen) ->
    screen = (if a then Dashboard else Login) /\ render a loc = Some screen.
Proof.
  induction fuel as [|fuel IH]; intros a pathname loc screen Hshow; [discriminate |].
  cbn [show] in Hshow. destruct (render a pathname) as [e |] eqn:Hr; [| discriminate].
  destruct (render_cases a pathname e Hr) as [-> | [to ->]].
  - destruct a; injection Hshow as <- <-; split; (reflexivity || exact Hr).
  - exact (IH a to loc screen Hshow).
Qed.

Lemma show_more_fuel (fuel : nat) :
  forall (a : bool) (pathname : string) (x : string * element),
    show fuel a pathname = Some x -> show (S fuel) a pathname = Some x.
Proof.
  induction fuel as [|fuel IH]; intros a pathname x Hshow; [discriminate |].
  cbn [show] in Hshow. change (show (S (S fuel)) a pathname) with
    (match render a pathname with
     | Some (Navigate to) => show (S fuel) a to
     | Some screen => Some (pathname, screen)
     | None => None
     end).
  destruct (render a pathname) as [[| | to] |]; try exact Hshow.
  now apply IH.
Qed.

(** X4.  The router is a gate: whatever the location and however many
    redirects are followed, an unauthenticated session is never shown the
    dashboard and an authenticated one is never shown the login screen. *)
Theorem router_gate (fuel : nat) (pathname loc : string) :
  show fuel false pathname <> Some (loc, Dashboard) /\
  show fuel true pathname <> Some (loc, Login).
Proof.
  split; intros H; apply show_sound in H as [H _]; discriminate H.
Qed.

(** X5.  Redirects settle: for every location that starts with a slash,
    three renders reach a location that shows the screen of the session
    without a further redirect; that location is the requested one, /login
    or /dashboard, and more renders give the same. *)
Theorem redirects_settle (a : bool) (rest : string) (extra : nat) :
  exists loc : string,
    show 3 a (String "/" rest) = Some (loc, if a then Dashboard else Login) /\
    render a loc = Some (if a then Dashboard else Login) /\
    show 1 a loc = Some (loc, if a then Dashboard else Login) /\
    (loc = String "/" rest \/ loc = "/login" \/ loc = "/dashboard") /\
    show (3 + extra) a (String "/" rest) = Some (loc, if a then Dashboard else Login).
Proof.
  destruct (show_screen a rest) as [loc Hloc]. exists loc.
  pose proof (show_sound 3 a _ _ _ Hloc) as [_ Hrender].
  split; [exact Hloc |]. split; [exact Hrender |].
  split; [cbn [show]; rewrite Hrender; now destruct a |].
  split.
  - assert (Hcases :
      show 3 a (String "/" rest)
      = Some (if a then ("/dashboard", Dashboard) else (String "/" rest, Login)) \/
      show 3 a (String "/" rest)
      = Some (if a then (String "/" rest, Dashboard) else ("/login", Login)) \/
      show 3 a (String "/" rest)
      = Some (if a then ("/dashboard", Dashboard) else ("/login", Login))).
    { destruct (ReactRouter.matchPath "/login" (String "/" rest)) eqn:Hl;
        [| destruct (ReactRouter.matchPath "/dashboard" (String "/" rest)) eqn:Hd;
           [| destruct (ReactRouter.matchPath "/" (String "/" rest)) eqn:Hroot]].
      - left. cbn [show]. rewrite (render_login a _ Hl). now destruct a.
      - right; left. cbn [show]. rewrite (render_dashboard a _ Hd). now destruct a.
      - right; right. cbn [show]. rewrite (render_root a _ Hroot). now destruct a.
      - right; right. cbn [show]. rewrite (render_unknown a rest Hl Hd Hroot).
        now destruct a. }
    destruct Hcases as [H | [H | H]]; rewrite H in Hloc; destruct a;
      injection Hloc as <-; auto.
  - induction extra as [|extra IH]; [exact Hloc |].
    replace (3 + S extra)%nat with (S (3 + extra)) by lia.
    now apply show_more_fuel.
Qed.

End Gate.

(** ** The credential check *)

Section CredentialCheck.
Import Login.

Lemma demo_pair (data : LoginForm) :
  String.eqb (email data) "admin@cryptoanalyzer.com" && String.eqb (password data) "admin123"
  = true <-> data = admin_form "admin123".
Proof.
  destruct data as [e p]. unfold admin_form. cbn [email password]. split.
  - intros H. apply andb_prop in H as [He Hp].
    apply String.eqb_eq in He, Hp. now subst.
  - intros [= -> ->]. reflexivity.
Qed.

(** The session after [onSubmit]: authenticated for the demo pair, else
    as it was. *)
Lemma onSubmit_session (data : LoginForm) (now : Number.number) (s : state) :
  App.isAuthenticated (app (onSubmit data now s)) = true <->
  data = admin_form "admin123" \/ App.isAuthenticated (app s) = true.
Proof.
  unfold onSubmit, authenticate.
  destruct (String.eqb (email data) "admin@cryptoanalyzer.com"
            && String.eqb (password data) "admin123") eqn:Hpair; cbn.
  - apply demo_pair in Hpair. tauto.
  - assert (Hne : data <> admin_form "admin123").
    { intros Heq. apply demo_pair in Heq. congruence. }
    tauto.
Qed.

(** X6.  [onSubmit] authenticates for the demo pair and for nothing else,
    letter case included: with any other form data the application and its
    storage are as before, the error of the login screen is set and one
    error toast is shown; and [loading] is off when it returns, either
    way. *)
Theorem onSubmit_only_demo (data : LoginForm) (now : Number.number) (s : state) :
  let s' := onSubmit data now s in
  loading s' = false /\
  (data <> admin_form "admin123" ->
   app s' = app s /\ error s' = "Invalid email or password" /\
   toasts s' = (toasts s ++ [toast_error "Login failed"])%list) /\
  (App.isAuthenticated (app s') = true <->
   data = admin_form "admin123" \/ App.isAuthenticated (app s) = true).
Proof.
  unfold onSubmit, authenticate.
  destruct (String.eqb (email data) "admin@cryptoanalyzer.com"
            && String.eqb (password data) "admin123") eqn:Hpair; cbn.
  - apply demo_pair in Hpair. repeat split; tauto.
  - assert (Hne : data <> admin_form "admin123").
    { intros H. apply demo_pair in H. congruence. }
    repeat split; tauto.
Qed.

Example onSubmit_letter_case :
  let start := {| loading := false; error := ""; toasts := []; app := App.load ∅ |} in
  App.isAuthenticated
    (app (onSubmit {| email := "Admin@cryptoanalyzer.com"; password := "admin123" |}
            (Number.ofZ 1700000000000) start)) = false /\
  App.isAuthenticated
    (app (onSubmit {| email := "admin@cryptoanalyzer.com"; password := "admin123 " |}
            (Number.ofZ 1700000000000) start)) = false.
Proof. vm_compute. split; reflexivity. Qed.

(** X7.  A login through [onSubmit] survives a reload: the token handed
    to [onLogin] starts with mock-jwt-token-, so it is not empty, and
    loading the page on the storage left by the login gives the state
    after the login. *)
Theorem onSubmit_survives_reload (now : Number.number) (s : state) :
  let s' := onSubmit (admin_form "admin123") now s in
  (exists suffix, token_of s' = Some ("mock-jwt-token-" +:+ suffix)) /\
  App.load (App.localStorage (app s')) = app s' /\
  App.consistent (app s').
Proof.
  cbn. unfold token_of, App.consistent, App.load, App.checkAuth, App.initial,
    App.handleLogin, App.getItem; cbn.
  rewrite lookup_insert_eq. repeat split.
  exists (Number.toString now). reflexivity.
Qed.

End CredentialCheck.

(** ** The rules of the login form *)

Section FormRules.
Import RegExp LoginRules.

Lemma append_is_empty (a b : string) : a +:+ b = "" -> a = "" /\ b = "".
Proof.
  destruct a as [|c a]; [| discriminate].
  rewrite append_empty. now intros ->.
Qed.

Lemma Matches_nullable (r : re) : nullable r = true <-> Matches r "".
Proof.
  split.
  - induction r as [| | p | r1 IH1 r2 IH2 | r1 IH1 r2 IH2 | r IH]; cbn [nullable]; intros H;
      try discriminate.
    + constructor.
    + apply andb_prop in H as [H1 H2]. exact (MCat r1 r2 "" "" (IH1 H1) (IH2 H2)).
    + apply orb_prop in H as [H | H]; [apply MAltL | apply MAltR]; auto.
    + constructor.
  - intros H. remember "" as s eqn:Hs.
    induction H as [| p c Hc | r1 r2 s1 s2 H1 IH1 H2 IH2 | r1 r2 s H IH | r1 r2 s H IH
                   | r | r s1 s2 H1 IH1 H2 IH2]; cbn [nullable]; try reflexivity.
    + discriminate.
    + apply append_is_empty in Hs as [-> ->]. now rewrite IH1, IH2.
    + now rewrite IH.
    + rewrite IH by assumption. apply orb_true_r.
Qed.

Lemma Matches_derive (c : ascii) (r : re) :
  forall s, Matches (derive c r) s <-> Matches r (String c s).
Proof.
  intros s. split.
  - revert s. induction r as [| | p | r1 IH1 r2 IH2 | r1 IH1 r2 IH2 | r IH];
      intros s H; cbn [derive] in H.
    + inversion H.
    + inversion H.
    + destruct (p c) eqn:Hp; inversion H; subst. now constructor.
    + destruct (nullable r1) eqn:Hn.
      * inversion H as [| | | ? ? ? Hl | ? ? ? Hr | |]; subst.
        -- inversion Hl as [| | ? ? s1 s2 Hl1 Hl2 | | | |]; subst.
           exact (MCat r1 r2 (String c s1) s2 (IH1 _ Hl1) Hl2).
        -- apply Matches_nullable in Hn.
           exact (MCat r1 r2 "" (String c s) Hn (IH2 _ Hr)).
      * inversion H as [| | ? ? s1 s2 Hl1 Hl2 | | | |]; subst.
        exact (MCat r1 r2 (String c s1) s2 (IH1 _ Hl1) Hl2).
    + inversion H; subst; [apply MAltL | apply MAltR]; auto.
    + inversion H as [| | ? ? s1 s2 Hl1 Hl2 | | | |]; subst.
      exact (MStarS r (String c s1) s2 (IH _ Hl1) Hl2).
  - intros H. remember (String c s) as w eqn:Hw. revert s Hw.
    induction H as [| p c0 Hc | r1 r2 s1 s2 H1 IH1 H2 IH2 | r1 r2 s0 H IH | r1 r2 s0 H IH
                   | r | r s1 s2 H1 IH1 H2 IH2]; intros s Hw; cbn [derive].
    + discriminate.
    + injection Hw as -> <-. rewrite Hc. constructor.
    + destruct s1 as [|c1 s1].
      * rewrite append_empty in Hw. subst s2.
        apply Matches_nullable in H1. rewrite H1. apply MAltR. now apply IH2.
      * rewrite append_String in Hw. injection Hw as -> <-.
        specialize (IH1 s1 eq_refl).
        destruct (nullable r1); [apply MAltL |]; now constructor.
    + apply MAltL. now apply IH.
    + apply MAltR. now apply IH.
    + discriminate.
    + destruct s1 as [|c1 s1].
      * rewrite append_empty in Hw. now apply IH2.
      * rewrite append_String in Hw. injection Hw as -> <-.
        constructor; [now apply IH1 | exact H2].
Qed.

(** The derivatives decide what the pattern denotes. *)
Lemma test_Matches (s : string) : forall r, test r s = true <-> Matches r s.
Proof.
  induction s as [|c s IH]; intros r; cbn [test].
  - apply Matches_nullable.
  - rewrite IH. apply Matches_derive.
Qed.

Lemma Matches_Cat (r1 r2 : re) (s : string) :
  Matches (Cat r1 r2) s <-> exists s1 s2, s = s1 +:+ s2 /\ Matches r1 s1 /\ Matches r2 s2.
Proof.
  split.
  - intros H. inversion H; subst. eauto.
  - intros (s1 & s2 & -> & H1 & H2). now constructor.
Qed.

Lemma Matches_Class (p : ascii -> bool) (s : string) :
  Matches (Class p) s <-> exists c, s = String c "" /\ p c = true.
Proof.
  split.
  - intros H. inversion H; subst. eauto.
  - intros (c & -> & Hc). now constructor.
Qed.

Lemma Matches_Star_Class (p : ascii -> bool) (s : string) :
  Matches (Star (Class p)) s <-> all_in p s = true.
Proof.
  split.
  - intros H. remember (Star (Class p)) as r eqn:Hr.
    induction H as [| | | | | r0 | r0 s1 s2 H1 _ H2 IH2]; try discriminate.
    + reflexivity.
    + injection Hr as ->. apply Matches_Class in H1 as (c & -> & Hc).
      rewrite append_String, append_empty. cbn [all_in]. now rewrite Hc, IH2.
  - induction s as [|c s IH]; cbn [all_in]; intros H; [constructor |].
    apply andb_prop in H as [Hc Hs].
    exact (MStarS (Class p) (String c "") s (MClass p c Hc) (IH Hs)).
Qed.

Lemma Matches_Plus_Class (p : ascii -> bool) (s : string) :
  Matches (Plus (Class p)) s <-> s <> "" /\ all_in p s = true.
Proof.
  unfold Plus. rewrite Matches_Cat. split.
  - intros (s1 & s2 & -> & H1 & H2). apply Matches_Class in H1 as (c & -> & Hc).
    apply Matches_Star_Class in H2. rewrite append_String, append_empty.
    split; [discriminate | cbn [all_in]; now rewrite Hc, H2].
  - intros [Hne H]. destruct s as [|c s]; [contradiction |].
    cbn [all_in] in H. apply andb_prop in H as [Hc Hs].
    exists (String c ""), s. repeat split.
    + now constructor.
    + now apply Matches_Star_Class.
Qed.

Lemma Matches_AtLeast2_Class (p : ascii -> bool) (s : string) :
  Matches (AtLeast2 (Class p)) s <-> (2 <= String.length s)%nat /\ all_in p s = true.
Proof.
  unfold AtLeast2. rewrite Matches_Cat. split.
  - intros (s1 & s2 & -> & H1 & H2). apply Matches_Class in H1 as (c & -> & Hc).
    apply Matches_Cat in H2 as (s3 & s4 & -> & H3 & H4).
    apply Matches_Class in H3 as (d & -> & Hd). apply Matches_Star_Class in H4.
    rewrite !append_String, !append_empty. cbn [String.length all_in].
    rewrite Hc, Hd, H4. split; [lia | reflexivity].
  - intros [Hlen H]. destruct s as [|c [|d s]]; cbn [String.length] in Hlen; try lia.
    cbn [all_in] in H. apply andb_prop in H as [Hc H]. apply andb_prop in H as [Hd Hs].
    exists (String c ""), (String d s). repeat split; [now constructor |].
    apply Matches_Cat. exists (String d ""), s. repeat split; [now constructor |].
    now apply Matches_Star_Class.
Qed.

(** X8.  The pattern of the email field accepts exactly the strings made
    of a local part, an at sign, a domain, a point and a top-level name:
    the local part is not empty and made of letters, digits and ._%+-, the
    domain is not empty and made of letters, digits, points and hyphens,
    and the top-level name is made of two letters or more. *)
Theorem email_pattern_shape (value : string) :
  test email_pattern value = true <->
  exists l d t : string,
    value = l +:+ "@" +:+ d +:+ "." +:+ t /\
    l <> "" /\ all_in local_char l = true /\
    d <> "" /\ all_in domain_char d = true /\
    (2 <= String.length t)%nat /\ all_in letter t = true.
Proof.
  rewrite test_Matches. unfold email_pattern.
  rewrite Matches_Cat. split.
  - intros (l & s1 & -> & Hl & H1).
    apply Matches_Cat in H1 as (a & s2 & -> & Ha & H2).
    apply Matches_Cat in H2 as (d & s3 & -> & Hd & H3).
    apply Matches_Cat in H3 as (p & t & -> & Hp & Ht).
    apply Matches_Class in Ha as (ca & -> & Hca). apply Ascii.eqb_eq in Hca. subst ca.
    apply Matches_Class in Hp as (cp & -> & Hcp). apply Ascii.eqb_eq in Hcp. subst cp.
    apply Matches_Plus_Class in Hl as [Hl1 Hl2]. apply Matches_Plus_Class in Hd as [Hd1 Hd2].
    apply Matches_AtLeast2_Class in Ht as [Ht1 Ht2].
    exists l, d, t. repeat split; assumption.
  - intros (l & d & t & -> & Hl1 & Hl2 & Hd1 & Hd2 & Ht1 & Ht2).
    exists l, ("@" +:+ d +:+ "." +:+ t). repeat split.
    + now apply Matches_Plus_Class.
    + apply Matches_Cat. exists "@", (d +:+ "." +:+ t). repeat split.
      * constructor. reflexivity.
      * apply Matches_Cat. exists d, ("." +:+ t). repeat split.
        -- now apply Matches_Plus_Class.
        -- apply Matches_Cat. exists ".", t. repeat split.
           ++ constructor. reflexivity.
           ++ now apply Matches_AtLeast2_Class.
Qed.

Example email_pattern_tests :
  map (test email_pattern)
    ["admin@cryptoanalyzer.com"; "ADMIN@Crypto-Analyzer.IO"; "a.b+c@d.e.fg"; "admin";
     "admin@localhost"; "admin@site.c"; "ad min@site.com"; "@site.com"; "a@b@c.de"; ""]
  = [true; true; true; false; false; false; false; false; false; false].
Proof. vm_compute. reflexivity. Qed.

(** The length of a string of ASCII characters is its number of bytes. *)
Lemma utf16_length_ascii (value : string) :
  all_in (fun c => Nat.ltb (nat_of_ascii c) 128) value = true ->
  utf16_length value = String.length value.
Proof.
  induction value as [|c value IH]; cbn [all_in utf16_length String.length]; [reflexivity |].
  intros H. apply andb_prop in H as [Hc Hv]. unfold code_units. now rewrite Hc, IH.
Qed.

(** X9.  [handleSubmit] calls [onSubmit] only for an email of the pattern
    and a password of 6 UTF-16 code units or more: otherwise the fields
    get their errors and the component, its toasts and the application
    stay as they are, so that a shorter password is never checked against
    the credentials.  The demo pair passes the rules, so through the form
    as well the session becomes authenticated for the demo pair and for
    nothing else. *)
Theorem handleSubmit_gate (data : Login.LoginForm) (now : Number.number) (s : state) :
  let s' := handleSubmit data now s in
  let valid :=
    test email_pattern (Login.email data) = true /\
    (6 <= utf16_length (Login.password data))%nat in
  ((emailError s' = None /\ passwordError s' = None) <-> valid) /\
  (valid -> component s' = Login.onSubmit data now (component s)) /\
  (~ valid -> component s' = component s) /\
  (App.isAuthenticated (Login.app (component s')) = true <->
   data = Login.admin_form "admin123" \/
   App.isAuthenticated (Login.app (component s)) = true).
Proof.
  intros s' valid.
  assert (He : validateEmail (Login.email data) = None <->
               test email_pattern (Login.email data) = true).
  { unfold validateEmail. destruct (String.eqb_spec (Login.email data) "") as [-> | _].
    - split; discriminate.
    - destruct (test email_pattern (Login.email data)); cbn; split; congruence. }
  assert (Hp : validatePassword (Login.password data) = None <->
               (6 <= utf16_length (Login.password data))%nat).
  { unfold validatePassword.
    destruct (String.eqb_spec (Login.password data) "") as [-> | _].
    - cbn. split; [discriminate | lia].
    - destruct (Nat.ltb_spec (utf16_length (Login.password data)) 6);
        split; (congruence || lia). }
  assert (Hvalid : valid <-> validateEmail (Login.email data) = None /\
                             validatePassword (Login.password data) = None)
    by (unfold valid; tauto).
  assert (Hdemo : data = Login.admin_form "admin123" -> valid).
  { intros ->. unfold valid. split; [vm_compute; reflexivity |].
    change (utf16_length (Login.password (Login.admin_form "admin123"))) with 8%nat. lia. }
  pose proof (onSubmit_session data now (component s)) as Hauth.
  unfold s', handleSubmit.
  destruct (validateEmail (Login.email data)) as [e |],
           (validatePassword (Login.password data)) as [p |]; cbn;
    repeat split; try tauto; try congruence;
    try (intros Hv; apply Hvalid in Hv as [? ?]; discriminate);
    (intros [H | H]; [apply Hdemo, Hvalid in H as [? ?]; discriminate | exact H]).
Qed.

Example handleSubmit_wrong :
  let start := {| emailError := None; passwordError := None;
                  component := {| Login.loading := false; Login.error := "";
                                  Login.toasts := []; Login.app := App.load ∅ |} |} in
  handleSubmit (Login.admin_form "wrong") (Number.ofZ 1700000000000) start
  = {| emailError := None;
       passwordError := Some "Password must be at least 6 characters";
       component := component start |}.
Proof. vm_compute. reflexivity. Qed.

(** Five characters of two bytes each are five code units, and refused;
    three characters beyond the basic plane are six code units. *)
Example validatePassword_lengths :
  map (fun v => (String.length v, utf16_length v, validatePassword v))
    ["wrong"; "admin123"; "ŁŁŁŁŁ"; "ŁŁŁŁŁŁ"; "😀😀😀"; "€€€€€"]
  = [(5, 5, Some "Password must be at least 6 characters"); (8, 8, None);
     (10, 5, Some "Password must be at least 6 characters"); (12, 6, None);
     (12, 6, None); (15, 5, Some "Password must be at least 6 characters")]%nat.
Proof. vm_compute. reflexivity. Qed.

End FormRules.

(** ** The rows of the table *)

Section Rows.
Import Number Dashboard DashboardComponent.

Lemma toFixed_2_Normal (x : number) : exists q, toFixed x 2 = Normal q.
Proof.
  unfold toFixed. change ((2 <? 0) || (100 <? 2)) with false. cbv iota.
  destruct (negb (isFinite x)); [eexists; reflexivity |].
  destruct (magnitude x) as [num den].
  destruct (10 ^ 21 * den <=? num); [eexists; reflexivity |].
  change (2 =? 0) with false. cbv iota. eexists; reflexivity.
Qed.

Lemma formatLargeNumber_Normal (v : number) : exists s, formatLargeNumber v = Normal s.
Proof.
  unfold formatLargeNumber, formatCurrency.
  destruct (ge v lit_1e12); [| destruct (ge v lit_1e9); [| destruct (ge v lit_1e6)]];
    try (eexists; reflexivity).
  - destruct (toFixed_2_Normal (div v lit_1e12)) as [q ->]. eexists; reflexivity.
  - destruct (toFixed_2_Normal (div v lit_1e9)) as [q ->]. eexists; reflexivity.
  - destruct (toFixed_2_Normal (div v lit_1e6)) as [q ->]. eexists; reflexivity.
Qed.

Lemma changeCell_Normal (change : number) :
  exists q, toFixed change 2 = Normal q /\
    changeCell change
    = Normal {| cell_icon := if gt change lit_0 then TrendingUp else TrendingDown;
                cell_color := getPriceChangeColor change;
                cell_text := (if gt change lit_0 then "+" else "") +:+ q +:+ "%" |}.
Proof.
  destruct (toFixed_2_Normal change) as [q Hq]. exists q. split; [exact Hq |].
  unfold changeCell. now rewrite Hq.
Qed.

Lemma renderRow_Normal (crypto : CryptoData) :
  exists r, renderRow crypto = Normal r /\ row_key r = symbol crypto.
Proof.
  unfold renderRow, formatCurrency. cbn [bind].
  destruct (changeCell_Normal (change24h crypto)) as (q & _ & ->). cbn [bind].
  destruct (formatLargeNumber_Normal (volume crypto)) as [v ->]. cbn [bind].
  destruct (formatLargeNumber_Normal (marketCap crypto)) as [m ->]. cbn [bind].
  eexists; split; reflexivity.
Qed.

Lemma mapRows_Normal (data : list CryptoData) :
  exists rs : list row,
    mapRows data = Normal rs /\
    Forall2 (fun crypto r => renderRow crypto = Normal r) data rs /\
    map row_key rs = map symbol data.
Proof.
  induction data as [|crypto data (rs & Hrs & Hall & Hkeys)]; cbn [mapRows].
  - exists []. repeat split. constructor.
  - destruct (renderRow_Normal crypto) as (r & Hr & Hkey).
    exists (r :: rs). rewrite Hr, Hrs. cbn [bind map].
    repeat split; [now constructor | now rewrite Hkey, Hkeys].
Qed.

(** X10.  The table never throws, whatever numbers the data hold: there
    is one row for each record, in the order of the data and keyed by the
    symbol of the record; without data ([undefined]) the table has no
    row. *)
Theorem renderRows_total (cryptoData : option (list CryptoData)) :
  exists rs : list row,
    renderRows cryptoData = Normal rs /\
    Forall2 (fun crypto r => renderRow crypto = Normal r) (default [] cryptoData) rs /\
    map row_key rs = map symbol (default [] cryptoData).
Proof.
  destruct cryptoData as [data |]; cbn [renderRows default].
  - apply mapRows_Normal.
  - exists []. repeat split. constructor.
Qed.

Example renderRows_mockData :
  match renderRows (Some mockData) with
  | Normal rs =>
      map (fun r => (row_key r, row_price r, cell_text (row_change r),
                     row_volume r, row_marketCap r)) rs
  | Throw _ => []
  end
  = [ ("BTC", "$67,500.00", "+2.40%", "$28.00B", "$1.32T");
      ("ETH", "$4,350.00", "+3.10%", "$15.00B", "$523.00B");
      ("UNI", "$11.47", "+8.70%", "$245.00M", "$8.90B");
      ("ADA", "$0.52", "-1.20%", "$180.00M", "$18.50B");
      ("TAO", "$425.30", "+15.80%", "$89.00M", "$3.20B") ].
Proof. vm_compute. reflexivity. Qed.

Lemma first_char_append (c : ascii) (a b : string) :
  first_char (String c a +:+ b) = Some c.
Proof. now rewrite append_String. Qed.

Lemma toFixed_negative (x : number) :
  lt x lit_0 = true -> exists q, toFixed x 2 = Normal (String "-" q).
Proof.
  intros Hlt. unfold toFixed. change ((2 <? 0) || (100 <? 2)) with false. cbv iota.
  destruct x as [s | [|] | | [|] m e]; try discriminate Hlt.
  - eexists; reflexivity.
  - cbn [isFinite negb negative]. destruct (magnitude _) as [num den].
    destruct (10 ^ 21 * den <=? num); [rewrite append_String; eexists; reflexivity |].
    change (2 =? 0) with false. cbv iota. rewrite append_String. eexists; reflexivity.
Qed.

(** X11.  The icon, the colour and the sign of a change agree.  Above
    zero the cell shows the rising arrow, the colour of success and a plus
    sign; below zero the falling arrow, the colour of errors and the minus
    sign of the number.  For a zero of either sign and for NaN it shows
    the falling arrow as well, in the neutral colour, before 0.00% or
    NaN%.  The cell never throws. *)
Theorem changeCell_sign (change : number) :
  exists cell : change_cell,
    changeCell change = Normal cell /\
    (gt change lit_0 = true ->
     cell_icon cell = TrendingUp /\ cell_color cell = "success.main" /\
     first_char (cell_text cell) = Some "+"%char) /\
    (lt change lit_0 = true ->
     cell_icon cell = TrendingDown /\ cell_color cell = "error.main" /\
     first_char (cell_text cell) = Some "-"%char) /\
    (gt change lit_0 = false -> lt change lit_0 = false ->
     cell_icon cell = TrendingDown /\ cell_color cell = "text.secondary" /\
     (cell_text cell = "0.00%" \/ cell_text cell = "NaN%")).
Proof.
  destruct (changeCell_Normal change) as (q & Hq & Hcell).
  eexists; split; [exact Hcell |]. cbn [cell_icon cell_color cell_text].
  unfold getPriceChangeColor. split; [| split].
  - intros Hgt. rewrite Hgt. split; [reflexivity | split; [reflexivity |]].
    apply first_char_append.
  - intros Hlt.
    assert (Hgt : gt change lit_0 = false)
      by (destruct change as [s | [|] | | [|] m e]; try discriminate Hlt; reflexivity).
    rewrite Hgt, Hlt. split; [reflexivity | split; [reflexivity |]].
    destruct (toFixed_negative change Hlt) as [q' Hq']. rewrite Hq' in Hq.
    injection Hq as <-. rewrite append_empty. apply first_char_append.
  - intros Hgt Hlt. rewrite Hgt, Hlt. split; [reflexivity | split; [reflexivity |]].
    destruct change as [s | [|] | | [|] m e];
      try discriminate Hgt; try discriminate Hlt;
      vm_compute in Hq; injection Hq as <-; [left | right]; reflexivity.
Qed.

Lemma without_last_app (q : string) (c : ascii) : without_last (q +:+ String c "") = q.
Proof.
  induction q as [|a q IH]; [reflexivity |].
  rewrite append_String. cbn [without_last]. rewrite IH.
  destruct q; [rewrite append_empty | rewrite append_String]; reflexivity.
Qed.

Lemma read_two_decimals_plus (q : string) : read_two_decimals (String "+" q) = None.
Proof.
  unfold read_two_decimals. cbn [strip_sign]. change (Ascii.eqb "+" "-") with false.
  cbv iota. cbn [String.length].
  destruct (String.length q) as [|[|[|n]]]; reflexivity.
Qed.

(** X12.  Below 10^21 the text of the cell reads back to the change
    itself: its sign and its hundredths, rounded half up; the plus sign in
    front of a rising change and the percent sign behind are the only
    additions. *)
Theorem changeCell_reads_back (change : number) (Hsmall : below_1e21 change = true) :
  exists cell : change_cell,
    changeCell change = Normal cell /\
    read_change (cell_text cell)
    = Some (negative change, round_half_up 2 (magnitude change)).
Proof.
  destruct (changeCell_Normal change) as (q & Hq & Hcell).
  destruct (toFixed_two_decimals change Hsmall) as (q' & Hq' & Hread).
  rewrite Hq' in Hq. injection Hq as ->.
  eexists; split; [exact Hcell |]. cbn [cell_text]. unfold read_change.
  destruct (gt change lit_0).
  - rewrite append_String, append_empty. change (Ascii.eqb "+" "+") with true. cbv iota.
    now rewrite without_last_app.
  - rewrite append_empty. destruct q as [|c q].
    + discriminate Hread.
    + rewrite append_String. destruct (Ascii.eqb_spec c "+") as [-> | _].
      * now rewrite read_two_decimals_plus in Hread.
      * rewrite <- append_String. now rewrite without_last_app.
Qed.

Lemma changeCell_reads_back_witness :
  below_1e21 (decimal (-12) 1) = true /\
  exists cell : change_cell,
    changeCell (decimal (-12) 1) = Normal cell /\
    read_change (cell_text cell) = Some (true, 120).
Proof.
  split; [vm_compute; reflexivity |].
  destruct (changeCell_reads_back (decimal (-12) 1)) as (cell & Hcell & Hread).
  - vm_compute. reflexivity.
  - exists cell. split; [exact Hcell |]. rewrite Hread. vm_compute. reflexivity.
Defined.

End Rows.

(** ** The data of a query *)

Section QueryData.
Import ReactQuery.
Context {TData : Type}.
Variable options : QueryOptions.

(** A fetch leaves the data as they are; the status becomes that of a
    first load only when no data were ever written. *)
Lemma fetch_keeps (now : Z) (q : Query TData) :
  data (state (fetch options now q)) = data (state q) /\
  dataUpdatedAt (state (fetch options now q)) = dataUpdatedAt (state q) /\
  (status (state (fetch options now q)) = status (state q) \/
   dataUpdatedAt (state q) = 0).
Proof.
  unfold fetch. destruct (isFetching (state q)), (promise q); cbn;
    repeat split; try (left; reflexivity).
  all: destruct (Z.eqb_spec (dataUpdatedAt (state q)) 0); [right | left]; auto.
Qed.

Lemma continueRetry_keeps (now : Z) (e : string) (q : Query TData) :
  data (state (continueRetry options now e q)) = data (state q) /\
  dataUpdatedAt (state (continueRetry options now e q)) = dataUpdatedAt (state q) /\
  (status (state (continueRetry options now e q)) = status (state q) \/
   status (state (continueRetry options now e q)) = Failure).
Proof.
  unfold continueRetry. destruct (cancelRetry q); cbn; repeat split; tauto.
Qed.

(** Only the query function's fulfilling writes the data of a query. *)
Lemma step_keeps (ev : Event TData) (q q' : Query TData) :
  step options ev q = Some q' ->
  match ev with
  | Resolve d now =>
      data (state q') = Some d /\ dataUpdatedAt (state q') = now /\
      status (state q') = Success
  | _ =>
      data (state q') = data (state q) /\
      dataUpdatedAt (state q') = dataUpdatedAt (state q) /\
      (status (state q') = status (state q) \/ status (state q') = Failure \/
       dataUpdatedAt (state q) = 0)
  end.
Proof.
  destruct ev as [now | i | i focused now | now | d now | e now | now | now | now];
    cbn [step]; intros Hstep.
  - injection Hstep as <-. unfold mount.
    destruct (shouldFetchOnMount options now _).
    + destruct (fetch_keeps now (setObservers (observers q ++ [armed options now]) q))
        as (Hd & Ht & Hs).
      cbn in Hd, Ht, Hs. repeat split; tauto.
    + cbn. repeat split. now left.
  - unfold unmount in Hstep. destruct (observers q !! i); [| discriminate].
    injection Hstep as <-.
    destruct (delete i (observers q)); [destruct (promise q) |]; cbn;
      repeat split; now left.
  - unfold intervalTick in Hstep. destruct (observers q !! i) as [o |]; [| discriminate].
    destruct (decide (nextTick o = Some now)); [| discriminate].
    injection Hstep as <-.
    destruct (refetchIntervalInBackground options || focused).
    + destruct (fetch_keeps now (setObservers (<[i := armed options now]> (observers q)) q))
        as (Hd & Ht & Hs).
      cbn in Hd, Ht, Hs. repeat split; tauto.
    + cbn. repeat split. now left.
  - unfold refetch in Hstep. destruct (observers q); [discriminate |].
    injection Hstep as <-.
    destruct (fetch_keeps now q) as (Hd & Ht & Hs). repeat split; tauto.
  - unfold resolve in Hstep. destruct (running q); [discriminate |].
    injection Hstep as <-. cbn. repeat split.
  - unfold reject in Hstep. destruct (running q); [discriminate |].
    destruct (negb _ && Nat.ltb _ _); injection Hstep as <-; cbn; repeat split; tauto.
  - unfold retryDue in Hstep. destruct (retryPending q) as [[due e] |]; [| discriminate].
    destruct (decide (due = now)); [| discriminate].
    destruct (isPaused q); [discriminate |]. injection Hstep as <-.
    destruct (continueRetry_keeps now e q) as (Hd & Ht & Hs). repeat split; tauto.
  - unfold retryPause in Hstep. destruct (retryPending q) as [[due e] |]; [| discriminate].
    destruct (decide (due = now)); [| discriminate].
    destruct (isPaused q); [discriminate |]. injection Hstep as <-.
    cbn. repeat split. now left.
  - injection Hstep as <-. unfold onFocus.
    set (q1 := match observers q with
               | [] => q
               | _ :: _ => if isStale options now q then fetch options now q else q
               end).
    assert (Hq1 : data (state q1) = data (state q) /\
                  dataUpdatedAt (state q1) = dataUpdatedAt (state q) /\
                  (status (state q1) = status (state q) \/ dataUpdatedAt (state q) = 0)).
    { unfold q1. destruct (observers q); [repeat split; now left |].
      destruct (isStale options now q); [apply fetch_keeps | repeat split; now left]. }
    destruct Hq1 as (Hd1 & Ht1 & Hs1).
    destruct (retryPending q1) as [[due e] |]; [| repeat split; tauto].
    destruct (isPaused q1); [| repeat split; tauto].
    destruct (continueRetry_keeps now e q1) as (Hd & Ht & Hs).
    repeat split; try congruence.
    destruct Hs as [Hs | Hs]; [| tauto]. rewrite Hs. tauto.
Qed.

(** Observers leave a query only by unmounting. *)
Lemma length_observers_fetch (now : Z) (q : Query TData) :
  length (observers (fetch options now q)) = length (observers q).
Proof.
  unfold fetch. destruct (isFetching (state q)), (promise q); cbn;
    rewrite ?length_map; reflexivity.
Qed.

Lemma length_observers_continue (now : Z) (e : string) (q : Query TData) :
  length (observers (continueRetry options now e q)) = length (observers q).
Proof.
  unfold continueRetry. destruct (cancelRetry q); cbn; rewrite ?length_map; reflexivity.
Qed.

Lemma step_observers (ev : Event TData) (q q' : Query TData) :
  step options ev q = Some q' ->
  match ev with
  | Unmount _ => True
  | _ => (length (observers q) <= length (observers q'))%nat
  end.
Proof.
  destruct ev as [now | i | i focused now | now | d now | e now | now | now | now];
    cbn [step]; intros Hstep; [| exact I | | | | | | |].
  - injection Hstep as <-. unfold mount.
    destruct (shouldFetchOnMount options now _);
      rewrite ?length_observers_fetch; cbn; rewrite length_app; lia.
  - unfold intervalTick in Hstep. destruct (observers q !! i) as [o |]; [| discriminate].
    destruct (decide (nextTick o = Some now)); [| discriminate].
    injection Hstep as <-.
    destruct (refetchIntervalInBackground options || focused);
      rewrite ?length_observers_fetch; cbn; rewrite length_insert; lia.
  - unfold refetch in Hstep. destruct (observers q) eqn:Hobs; [discriminate |].
    injection Hstep as <-. rewrite length_observers_fetch, Hobs. lia.
  - unfold resolve in Hstep. destruct (running q); [discriminate |].
    injection Hstep as <-. cbn. rewrite length_map. lia.
  - unfold reject in Hstep. destruct (running q); [discriminate |].
    destruct (negb _ && Nat.ltb _ _); injection Hstep as <-; cbn; rewrite length_map; lia.
  - unfold retryDue in Hstep. destruct (retryPending q) as [[due e] |]; [| discriminate].
    destruct (decide (due = now)); [| discriminate].
    destruct (isPaused q); [discriminate |]. injection Hstep as <-.
    rewrite length_observers_continue. lia.
  - unfold retryPause in Hstep. destruct (retryPending q) as [[due e] |]; [| discriminate].
    destruct (decide (due = now)); [| discriminate].
    destruct (isPaused q); [discriminate |]. injection Hstep as <-. cbn. lia.
  - injection Hstep as <-. unfold onFocus.
    set (q1 := match observers q with
               | [] => q
               | _ :: _ => if isStale options now q then fetch options now q else q
               end).
    assert (Hq1 : length (observers q1) = length (observers q)).
    { unfold q1. destruct (observers q) eqn:Hobs; [now rewrite Hobs |].
      destruct (isStale options now q); [| now rewrite Hobs].
      now rewrite length_observers_fetch, Hobs. }
    destruct (retryPending q1) as [[due e] |]; [| lia].
    destruct (isPaused q1); [| lia].
    rewrite length_observers_continue. lia.
Qed.

(** Leaving a query keeps its state and starts no call. *)
Lemma unmount_keeps (i : nat) (q q' : Query TData) :
  unmount i q = Some q' -> state q' = state q /\ callLog q' = callLog q.
Proof.
  unfold unmount. destruct (observers q !! i); [| discriminate].
  intros [= <-]. destruct (delete i (observers q)); [destruct (promise q) |]; now cbn.
Qed.

End QueryData.

(** ** The component of the dashboard *)

Section Component.
Import ReactQuery Dashboard DashboardComponent.

(** The state of the query that the component observes. *)
Abbreviation queryState s := (ReactQuery.state (query s)).

(** What an action does to the component. *)
Lemma act_frame (a : action) (s s' : state) :
  act a s = Some s' ->
  observer s' = observer s /\ app s' = app s /\
  toasts s' = (toasts s ++ refreshToasts [a])%list.
Proof.
  destruct a as [target | | now | symbol | ev]; cbn [act refreshToasts].
  - intros [= <-]. cbn. now rewrite app_nil_r.
  - intros [= <-]. cbn. now rewrite app_nil_r.
  - unfold handleRefresh. destruct (refetch queryOptions now (query s)); [| discriminate].
    intros [= <-]. now cbn.
  - intros [= <-]. cbn. now rewrite app_nil_r.
  - unfold onQuery. destruct (step queryOptions ev (query s)); [| discriminate].
    intros [= <-]. destruct ev; cbn; now rewrite app_nil_r.
Qed.

Lemma act_data (a : action) (s s' : state) :
  act a s = Some s' ->
  (lastUpdate s' = dataUpdatedAt (queryState s') /\
   data (queryState s') <> None /\ status (queryState s') = Success) \/
  (lastUpdate s' = lastUpdate s /\
   data (queryState s') = data (queryState s) /\
   dataUpdatedAt (queryState s') = dataUpdatedAt (queryState s) /\
   (status (queryState s') = status (queryState s) \/
    status (queryState s') = Failure \/
    dataUpdatedAt (queryState s) = 0)).
Proof.
  destruct a as [target | | now | symbol | ev]; cbn [act].
  - intros [= <-]. right. cbn. repeat split. now left.
  - intros [= <-]. right. cbn. repeat split. now left.
  - unfold handleRefresh.
    destruct (refetch queryOptions now (query s)) as [q' |] eqn:Hq; [| discriminate].
    intros [= <-]. right. cbn.
    pose proof (step_keeps queryOptions (Refetch now) _ _ Hq) as H. cbn in H.
    repeat split; tauto.
  - intros [= <-]. right. cbn. repeat split. now left.
  - unfold onQuery.
    destruct (step queryOptions ev (query s)) as [q' |] eqn:Hq; [| discriminate].
    intros [= <-]. pose proof (step_keeps queryOptions ev _ _ Hq) as H.
    destruct ev; cbn; try (right; repeat split; tauto).
    left. destruct H as (-> & -> & ->). repeat split. discriminate.
Qed.

(** While no observer leaves, the query keeps the observers it has. *)
Lemma run_observers (acts : list action) :
  forall s s' : state,
    stays_mounted acts = true -> run acts s = Some s' ->
    (length (observers (query s)) <= length (observers (query s')))%nat.
Proof.
  induction acts as [|a acts IH]; intros s s'; cbn [run stays_mounted forallb].
  - intros _ [= <-]. lia.
  - intros Hstays. apply andb_prop in Hstays as [Ha Hacts].
    destruct (act a s) as [s1 |] eqn:Hact; [| discriminate].
    intros Hrun. specialize (IH s1 s' Hacts Hrun).
    enough (length (observers (query s)) <= length (observers (query s1)))%nat by lia.
    destruct a as [target | | t | symbol | ev]; cbn [act] in Hact.
    + injection Hact as <-. cbn. lia.
    + injection Hact as <-. cbn. lia.
    + unfold handleRefresh in Hact.
      destruct (refetch queryOptions t (query s)) as [q' |] eqn:Hq; [| discriminate].
      injection Hact as <-. cbn.
      exact (step_observers queryOptions (Refetch t) _ _ Hq).
    + injection Hact as <-. cbn. lia.
    + unfold onQuery in Hact.
      destruct (step queryOptions ev (query s)) as [q' |] eqn:Hq; [| discriminate].
      injection Hact as <-.
      pose proof (step_observers queryOptions ev _ _ Hq) as H.
      destruct ev; cbn; try exact H. discriminate Ha.
Qed.

Lemma mount_observers (now : Z) (shown : list Login.toast) (q : Query (list CryptoData))
    (a : App.state) :
  length (observers (query (mount now shown q a))) = S (length (observers q)).
Proof.
  cbn [mount query]. unfold ReactQuery.mount.
  destruct (shouldFetchOnMount queryOptions now _);
    rewrite ?length_observers_fetch; cbn; rewrite length_app; cbn; lia.
Qed.

(** X13.  While the dashboard stays mounted (no observer leaves the
    query, which therefore stays in the cache), the chip of the last
    update shows the time of the latest fetch that succeeded since the
    component mounted, and until one succeeds the time of the mount,
    whatever the age of the data: a dashboard mounted over cached data
    shows the time of its mount beside data that were fetched earlier, and
    a refresh or a failure changes neither the chip nor the data. *)
Theorem lastUpdate_shows (acts : list action) (now : Z) (shown : list Login.toast)
    (q : Query (list CryptoData)) (a : App.state) (s' : state)
    (Hstays : stays_mounted acts = true)
    (Hrun : run acts (mount now shown q a) = Some s') :
  observers (query s') <> [] /\
  ((lastUpdate s' = dataUpdatedAt (queryState s') /\ data (queryState s') <> None) \/
   (lastUpdate s' = now /\
    dataUpdatedAt (queryState s') = dataUpdatedAt (ReactQuery.state q) /\
    data (queryState s') = data (ReactQuery.state q))).
Proof.
  split.
  { pose proof (run_observers acts _ _ Hstays Hrun) as Hlen.
    rewrite mount_observers in Hlen. intros Hnil. rewrite Hnil in Hlen. cbn in Hlen. lia. }
  clear Hstays.
  assert (Hstart :
    lastUpdate (mount now shown q a) = now /\
    dataUpdatedAt (queryState (mount now shown q a)) = dataUpdatedAt (ReactQuery.state q) /\
    data (queryState (mount now shown q a)) = data (ReactQuery.state q)).
  { pose proof (step_keeps queryOptions (Mount now) q _ eq_refl) as H. cbn in H.
    cbn [mount lastUpdate query]. repeat split; tauto. }
  revert Hrun. generalize (mount now shown q a) Hstart. clear Hstart.
  induction acts as [|act1 acts IH]; intros s Hs; cbn [run].
  - intros [= <-]. now right.
  - destruct (act act1 s) as [s1 |] eqn:Hact; [| discriminate].
    intros Hrun. destruct (act_data act1 s s1 Hact) as [(Hl & Hd & _) | (Hl & Hd & Ht & _)].
    + clear IH Hs Hact. revert s1 Hl Hd Hrun.
      induction acts as [|act2 acts IH]; intros s1 Hl Hd; cbn [run].
      * intros [= <-]. now left.
      * destruct (act act2 s1) as [s2 |] eqn:Hact; [| discriminate].
        intros Hrun.
        destruct (act_data act2 s1 s2 Hact) as [(Hl2 & Hd2 & _) | (Hl2 & Hd2 & Ht2 & _)].
        -- exact (IH s2 Hl2 Hd2 Hrun).
        -- apply (IH s2); [congruence | congruence | exact Hrun].
    + apply (IH s1); [| exact Hrun]. destruct Hs as (Hs1 & Hs2 & Hs3).
      repeat split; congruence.
Qed.

Lemma lastUpdate_shows_witness :
  exists s',
    run [MenuOpen 0; Refresh 50000; QueryEvent (Reject "offline" 51000)]
      (mount 42000 []
         (default newQuery
            (steps queryOptions [Mount 1000; Resolve mockData 2000; Unmount 0] newQuery))
         (App.load ∅)) = Some s' /\
    lastUpdate s' = 42000 /\ dataUpdatedAt (queryState s') = 2000 /\
    data (queryState s') = Some mockData.
Proof.
  eexists. split; [vm_compute; reflexivity |].
  destruct (lastUpdate_shows
              [MenuOpen 0; Refresh 50000; QueryEvent (Reject "offline" 51000)] 42000 []
              (default newQuery
                 (steps queryOptions [Mount 1000; Resolve mockData 2000; Unmount 0]
                    newQuery))
              (App.load ∅) _ eq_refl ltac:(vm_compute; reflexivity)) as [_ [[H _] | H]].
  - vm_compute in H. discriminate H.
  - repeat split.
Defined.

(** X14.  The only toasts of the dashboard before a logout are those of
    the refresh button, one for each press.  No event of the query shows
    a toast or touches the session: a fetch that fails, after all its
    retries as well, stays silent.  Nor does the Analyze button show one:
    its handler throws, [toast.info] being no function. *)
Theorem run_toasts (acts : list action) (s s' : state) (Hrun : run acts s = Some s') :
  toasts s' = (toasts s ++ refreshToasts acts)%list /\
  app s' = app s /\ observer s' = observer s.
Proof.
  revert s Hrun. induction acts as [|a acts IH]; intros s; cbn [run].
  - intros [= <-]. cbn. now rewrite app_nil_r.
  - destruct (act a s) as [s1 |] eqn:Hact; [| discriminate].
    intros Hrun. destruct (act_frame a s s1 Hact) as (Ho & Ha & Ht).
    destruct (IH s1 Hrun) as (Ht' & Ha' & Ho').
    repeat split; try congruence.
    rewrite Ht', Ht, <- app_assoc. f_equal.
    destruct a; reflexivity.
Qed.

Lemma run_toasts_witness :
  exists s',
    run [Refresh 1500; Analyze "BTC";
         QueryEvent (Reject "offline" 2000); QueryEvent (RetryDue 3000);
         QueryEvent (Reject "offline" 4000); QueryEvent (RetryDue 5000);
         QueryEvent (Reject "offline" 6000); QueryEvent (RetryDue 7000);
         QueryEvent (Reject "offline" 8000)]
      (mount 1000 [] newQuery (App.load ∅)) = Some s' /\
    toasts s' = [Login.toast_success "Data refreshed"] /\
    error (queryState s') = Some "offline".
Proof.
  eexists. split; [vm_compute; reflexivity |].
  split; [| vm_compute; reflexivity].
  refine (proj1 (run_toasts
              [Refresh 1500; Analyze "BTC";
               QueryEvent (Reject "offline" 2000); QueryEvent (RetryDue 3000);
               QueryEvent (Reject "offline" 4000); QueryEvent (RetryDue 5000);
               QueryEvent (Reject "offline" 6000); QueryEvent (RetryDue 7000);
               QueryEvent (Reject "offline" 8000)]
              (mount 1000 [] newQuery (App.load ∅)) _ _)).
  vm_compute. reflexivity.
Defined.

(** X15.  The refresh button of a mounted dashboard always works and
    shows its toast at once, while the data and the chip of the last
    update are still what they were: the fetch is only under way.  It
    calls the query function whatever the age of the data, unless a fetch
    is under way already, which it joins. *)
Theorem handleRefresh_toast (now : Z) (s : state)
    (Hmounted : observers (query s) <> []) :
  exists s' : state,
    handleRefresh now s = Some s' /\
    toasts s' = (toasts s ++ [Login.toast_success "Data refreshed"])%list /\
    lastUpdate s' = lastUpdate s /\
    data (queryState s') = data (queryState s) /\
    dataUpdatedAt (queryState s') = dataUpdatedAt (queryState s) /\
    isFetching (queryState s') = true /\
    callLog (query s')
    = if isFetching (queryState s) && promise (query s) then callLog (query s)
      else now :: callLog (query s).
Proof.
  unfold handleRefresh, refetch.
  destruct (observers (query s)) as [|o obs] eqn:Hobs; [contradiction |].
  eexists; split; [reflexivity |]. cbn.
  destruct (fetch_keeps queryOptions now (query s)) as (Hd & Ht & _).
  destruct (fetching_fetch queryOptions now (query s)) as (Hf & _).
  repeat split; try assumption.
  unfold fetch. destruct (isFetching (ReactQuery.state (query s))), (promise (query s));
    reflexivity.
Qed.

Lemma handleRefresh_toast_witness :
  exists s' : state,
    handleRefresh 3000 (mount 1000 [] newQuery (App.load ∅)) = Some s' /\
    toasts s' = [Login.toast_success "Data refreshed"] /\
    data (queryState s') = None /\
    callLog (query s') = [1000].
Proof.
  destruct (handleRefresh_toast 3000 (mount 1000 [] newQuery (App.load ∅)))
    as (s' & Hs & Ht & _ & Hd & _ & _ & Hc).
  - vm_compute. discriminate.
  - exists s'. repeat split; assumption.
Defined.

(** The progress bar belongs to a query without data. *)
Lemma act_loading (a : action) (s s' : state) :
  act a s = Some s' ->
  (dataUpdatedAt (queryState s) <> 0 ->
   status (queryState s) <> Loading /\ data (queryState s) <> None) ->
  dataUpdatedAt (queryState s') <> 0 ->
  status (queryState s') <> Loading /\ data (queryState s') <> None.
Proof.
  intros Hact Hs Hpos.
  destruct (act_data a s s' Hact) as [(_ & Hd & Hst) | (_ & Hd & Ht & Hst)].
  - split; [congruence | exact Hd].
  - rewrite Ht in Hpos. destruct (Hs Hpos) as [Hs1 Hs2].
    split; [| congruence]. destruct Hst as [Hst | [Hst | Hst]]; congruence.
Qed.

(** X16.  The progress bar is that of the first load.  While the
    dashboard stays mounted (no observer leaves the query, which therefore
    stays in the cache), once a fetch has succeeded (the query has a time
    of update) the dashboard never shows the bar again and always has the
    rows of the latest data, while it refetches, while it retries and
    after a failure. *)
Theorem isLoading_first_load (acts : list action) (now : Z) (shown : list Login.toast)
    (a : App.state) (s' : state)
    (Hstays : stays_mounted acts = true)
    (Hrun : run acts (mount now shown newQuery a) = Some s')
    (Hdata : dataUpdatedAt (queryState s') <> 0) :
  observers (query s') <> [] /\
  isLoading s' = false /\
  exists (d : list CryptoData) (rs : list row),
    data (queryState s') = Some d /\ rows s' = Normal rs /\
    map row_key rs = map symbol d.
Proof.
  split.
  { pose proof (run_observers acts _ _ Hstays Hrun) as Hlen.
    rewrite mount_observers in Hlen. intros Hnil. rewrite Hnil in Hlen. cbn in Hlen. lia. }
  clear Hstays.
  assert (Hinv : status (queryState s') <> Loading /\ data (queryState s') <> None).
  { revert Hrun Hdata.
    assert (Hstart : dataUpdatedAt (queryState (mount now shown newQuery a)) <> 0 ->
                     status (queryState (mount now shown newQuery a)) <> Loading /\
                     data (queryState (mount now shown newQuery a)) <> None)
      by (intros H; exfalso; apply H; reflexivity).
    generalize (mount now shown newQuery a) Hstart. clear Hstart.
    induction acts as [|act1 acts IH]; intros s Hs; cbn [run].
    - intros [= <-]. exact Hs.
    - destruct (act act1 s) as [s1 |] eqn:Hact; [| discriminate].
      apply IH. intros H1. exact (act_loading act1 s s1 Hact Hs H1). }
  destruct Hinv as [Hst Hd]. split.
  - unfold isLoading. destruct (status (queryState s')); congruence.
  - destruct (data (queryState s')) as [d |] eqn:Ed; [| congruence].
    destruct (mapRows_Normal d) as (rs & Hrs & _ & Hkeys).
    exists d, rs. repeat split; [| exact Hkeys].
    unfold rows. now rewrite Ed.
Qed.

Lemma isLoading_first_load_witness :
  exists s' : state,
    run [QueryEvent (Resolve mockData 2000); Refresh 3000; QueryEvent (Reject "offline" 4000)]
      (mount 1000 [] newQuery (App.load ∅)) = Some s' /\
    isFetching (queryState s') = true /\ isLoading s' = false /\
    data (queryState s') = Some mockData.
Proof.
  eexists. split; [vm_compute; reflexivity |]. split; [vm_compute; reflexivity |].
  destruct (isLoading_first_load
              [QueryEvent (Resolve mockData 2000); Refresh 3000;
               QueryEvent (Reject "offline" 4000)]
              1000 [] (App.load ∅) _ eq_refl ltac:(vm_compute; reflexivity))
    as (_ & Hl & d & rs & Hd & _).
  - vm_compute. discriminate.
  - split; [exact Hl | vm_compute; reflexivity].
Defined.

(** X17.  Logging out from the dashboard closes the menu, removes the
    token, shows its toast and leaves the query of the cache as it is.
    From then on the router answers /dashboard with the login screen, and
    so it does after a reload of the page. *)
Theorem handleLogout_dashboard (s : state) :
  let s' := handleLogout s in
  anchorEl s' = None /\
  toasts s' = (toasts s ++ [Login.toast_success "Logged out successfully"])%list /\
  query s' = query s /\ lastUpdate s' = lastUpdate s /\
  App.getItem "auth_token" (App.localStorage (app s')) = None /\
  App.load (App.localStorage (app s')) = app s' /\
  App.view (app s') "/dashboard" = Some ("/login", App.Login).
Proof.
  cbn. unfold App.getItem, App.load, App.checkAuth, App.handleLogout, App.getItem. cbn.
  rewrite lookup_delete_eq. repeat split.
Qed.

(** X18.  The cache outlives the session: a dashboard that mounts after a
    logout, while the data are younger than the stale time of five
    minutes, shows the rows of the session before without a call of the
    query function and without a progress bar, under a chip that shows
    the time of the new mount. *)
Theorem mount_after_logout (s : state) (q1 : Query (list CryptoData)) (now : Z)
    (shown : list Login.toast) (a : App.state)
    (Hdata : 0 < dataUpdatedAt (queryState s))
    (Hvalid : isInvalidated (queryState s) = false)
    (Hfresh : now < dataUpdatedAt (queryState s) + 300000)
    (Hleft : unmount (handleLogout s) = Some q1) :
  let s2 := mount now shown q1 a in
  callLog (query s2) = callLog (query s) /\
  queryState s2 = queryState s /\
  rows s2 = rows s /\ isLoading s2 = isLoading s /\
  lastUpdate s2 = now.
Proof.
  unfold unmount in Hleft. cbn in Hleft.
  destruct (unmount_keeps _ _ _ Hleft) as [Hst Hlog].
  unfold rows, isLoading. cbn [mount query lastUpdate].
  rewrite (mount_fresh queryOptions now q1)
    by (rewrite ?Hst; (exact Hdata || exact Hvalid || exact Hfresh)).
  cbn. rewrite Hst, Hlog. repeat split.
Qed.

Lemma mount_after_logout_witness :
  let start := mount 1000 [] newQuery (App.load ∅) in
  let s := default start (run [QueryEvent (Resolve mockData 2000)] start) in
  let q1 := default newQuery (unmount (handleLogout s)) in
  callLog (query (mount 42000 [] q1 (App.load ∅))) = [1000] /\
  data (queryState (mount 42000 [] q1 (App.load ∅))) = Some mockData /\
  lastUpdate (mount 42000 [] q1 (App.load ∅)) = 42000.
Proof.
  intros start s q1.
  destruct (mount_after_logout s q1 42000 [] (App.load ∅)) as (Hc & Hs & _ & _ & Hl);
    try (vm_compute; reflexivity).
  split; [rewrite Hc | split; [rewrite Hs | exact Hl]]; vm_compute; reflexivity.
Defined.

End Component.

(** ** The shape of an amount *)

Section Amounts.
Import Number Intl Dashboard DashboardComponent.

(** The digits of the shortest decimal form are those of a natural
    number. *)
Lemma candidate_nonneg (m : positive) (e k n s : Z) :
  candidate m e k n = Some s -> 0 <= s.
Proof.
  unfold candidate. destruct (rounds_to m e) as [[lo hi] closed]. cbv zeta.
  set (smin := Z.max _ (10 ^ (k - 1))). set (smax := Z.min _ (10 ^ k - 1)).
  assert (Hmin : 0 <= smin).
  { unfold smin. pose proof (Z.pow_nonneg 10 (k - 1) ltac:(lia)). lia. }
  destruct (smax <? smin) eqn:Hle; [discriminate |]. apply Z.ltb_ge in Hle.
  intros [= <-].
  repeat match goal with
         | |- context [if ?b then _ else _] =>
             let H := fresh "H" in
             destruct b eqn:H;
             [apply andb_prop in H as [H _]; apply andb_prop in H as [H _];
              apply Z.leb_le in H |]
         end; lia.
Qed.

Lemma shortest_from_nonneg (fuel : nat) (m : positive) (e : Z) :
  forall k : Z, let '(_, _, s) := shortest_from fuel m e k in 0 <= s.
Proof.
  induction fuel as [|fuel IH]; intros k; cbn [shortest_from];
    destruct (candidate m e k (ilog10 (valueQ m e))) as [s1 |] eqn:H1;
    try (apply candidate_nonneg in H1; exact H1);
    destruct (candidate m e k (ilog10 (valueQ m e) + 1)) as [s2 |] eqn:H2;
    try (apply candidate_nonneg in H2; exact H2);
    destruct (candidate m e k (ilog10 (valueQ m e) - 1)) as [s3 |] eqn:H3;
    try (apply candidate_nonneg in H3; exact H3).
  - lia.
  - apply IH.
Qed.

Lemma shortest_magnitude_bounds (x : number) :
  let '(num, den) := shortest_magnitude x in 0 <= num /\ 0 < den.
Proof.
  destruct x as [s | s | | s m e]; cbn [shortest_magnitude]; try lia.
  unfold shortest. pose proof (shortest_from_nonneg 17 m e 1) as Hs.
  destruct (shortest_from 17 m e 1) as [[n k] d].
  destruct (Z.leb_spec 0 (n - k)).
  - split; [| lia]. apply Z.mul_nonneg_nonneg; [exact Hs | apply Z.pow_nonneg; lia].
  - split; [exact Hs | apply Z.pow_pos_nonneg; lia].
Qed.

Lemma group3_false_3 (c1 c2 c3 : ascii) (s : string) (n : nat) :
  String.length s = (3 * n)%nat ->
  group3 false (String c1 (String c2 (String c3 s)))
  = String "," (String c1 (String c2 (String c3 (group3 false s)))).
Proof.
  intros Hs. cbn [group3 negb andb String.length]. rewrite Hs.
  replace (S (S (S (3 * n))) mod 3)%nat with 0%nat by (apply Nat.mod_unique with (S n); lia).
  replace (S (S (3 * n)) mod 3)%nat with 2%nat by (apply Nat.mod_unique with n; lia).
  replace (S (3 * n) mod 3)%nat with 1%nat by (apply Nat.mod_unique with n; lia).
  reflexivity.
Qed.

Lemma group3_true_1 (c1 : ascii) (s : string) :
  group3 true (String c1 s) = String c1 (group3 false s).
Proof. reflexivity. Qed.

Lemma group3_true_2 (c1 c2 : ascii) (s : string) (n : nat) :
  String.length s = (3 * n)%nat ->
  group3 true (String c1 (String c2 s)) = String c1 (String c2 (group3 false s)).
Proof.
  intros Hs. cbn [group3 negb andb String.length]. rewrite Hs.
  replace (S (3 * n) mod 3)%nat with 1%nat by (apply Nat.mod_unique with n; lia).
  reflexivity.
Qed.

Lemma group3_true_3 (c1 c2 c3 : ascii) (s : string) (n : nat) :
  String.length s = (3 * n)%nat ->
  group3 true (String c1 (String c2 (String c3 s)))
  = String c1 (String c2 (String c3 (group3 false s))).
Proof.
  intros Hs. cbn [group3 negb andb String.length]. rewrite Hs.
  replace (S (S (3 * n)) mod 3)%nat with 2%nat by (apply Nat.mod_unique with n; lia).
  replace (S (3 * n) mod 3)%nat with 1%nat by (apply Nat.mod_unique with n; lia).
  reflexivity.
Qed.

(** The groups of three digits, each behind its comma, before the
    fraction. *)
Lemma comma_groups_group3 (d1 d2 : ascii) (n : nat) :
  forall s : string,
    String.length s = (3 * n)%nat -> all_digits s = true ->
    comma_groups (group3 false s +:+ String "." (String d1 (String d2 "")))
    = Some (String "." (String d1 (String d2 ""))) /\
    exists c u, group3 false s +:+ String "." (String d1 (String d2 "")) = String c u /\
                is_digit c = false.
Proof.
  induction n as [|n IH]; intros s Hlen Hdig.
  - destruct s; [| discriminate Hlen]. cbn [group3]. rewrite append_empty.
    split; [reflexivity |]. eexists; eexists; split; reflexivity.
  - destruct s as [|c1 [|c2 [|c3 s]]]; cbn [String.length] in Hlen; try lia.
    cbn [all_digits] in Hdig.
    apply andb_prop in Hdig as [H1 Hdig]. apply andb_prop in Hdig as [H2 Hdig].
    apply andb_prop in Hdig as [H3 Hdig].
    rewrite (group3_false_3 c1 c2 c3 s n) by lia.
    rewrite !append_String. split.
    + cbn [comma_groups]. change (Ascii.eqb "," ",") with true. rewrite H1, H2, H3.
      cbn [andb]. apply IH; [lia | exact Hdig].
    + eexists; eexists; split; reflexivity.
Qed.

Lemma leading_digits_group3 (d1 d2 : ascii) (a : string) :
  a <> "" -> all_digits a = true ->
  exists (n : nat) (s : string),
    String.length s = (3 * n)%nat /\ all_digits s = true /\
    leading_digits (group3 true a +:+ String "." (String d1 (String d2 "")))
    = Some (group3 false s +:+ String "." (String d1 (String d2 ""))).
Proof.
  intros Hne Hdig. destruct a as [|c1 s1]; [contradiction |].
  cbn [all_digits] in Hdig. apply andb_prop in Hdig as [H1 Hdig].
  assert (Hcases : exists n,
            String.length s1 = (3 * n)%nat \/ String.length s1 = S (3 * n) \/
            String.length s1 = S (S (3 * n))).
  { exists (String.length s1 / 3)%nat.
    pose proof (Nat.div_mod_eq (String.length s1) 3) as Hdm.
    pose proof (Nat.mod_upper_bound (String.length s1) 3 ltac:(lia)) as Hub.
    lia. }
  destruct Hcases as (n & [Hn | [Hn | Hn]]).
  - exists n, s1. repeat split; [exact Hn | exact Hdig |].
    rewrite group3_true_1, append_String.
    destruct (comma_groups_group3 d1 d2 n s1 Hn Hdig) as (_ & c & u & -> & Hc).
    cbn [leading_digits]. now rewrite H1, Hc.
  - destruct s1 as [|c2 s2]; [discriminate Hn |]. cbn [String.length] in Hn.
    cbn [all_digits] in Hdig. apply andb_prop in Hdig as [H2 Hdig].
    exists n, s2. repeat split; [lia | exact Hdig |].
    rewrite (group3_true_2 c1 c2 s2 n) by lia. rewrite !append_String.
    destruct (comma_groups_group3 d1 d2 n s2 ltac:(lia) Hdig) as (_ & c & u & -> & Hc).
    cbn [leading_digits]. now rewrite H1, H2, Hc.
  - destruct s1 as [|c2 [|c3 s3]]; cbn [String.length] in Hn; try lia.
    cbn [all_digits] in Hdig. apply andb_prop in Hdig as [H2 Hdig].
    apply andb_prop in Hdig as [H3 Hdig].
    exists n, s3. repeat split; [lia | exact Hdig |].
    rewrite (group3_true_3 c1 c2 c3 s3 n) by lia. rewrite !append_String.
    cbn [leading_digits]. now rewrite H1, H2, H3.
Qed.

Lemma dollar_shape_parts (sign : bool) (a b : string) :
  a <> "" -> all_digits a = true -> String.length b = 2%nat -> all_digits b = true ->
  let s := (if sign then "-" else "") +:+ "$" +:+ group3 true a +:+ "." +:+ b in
  dollar_shape s = true /\ fst (strip_sign s) = sign.
Proof.
  intros Hne Ha Hlen Hb.
  destruct b as [|d1 [|d2 [|d3 b]]]; try discriminate Hlen.
  cbn [all_digits] in Hb. apply andb_prop in Hb as [Hd1 Hb].
  apply andb_prop in Hb as [Hd2 _].
  destruct (leading_digits_group3 d1 d2 a Hne Ha) as (n & s & Hs & Hsd & Hlead).
  destruct (comma_groups_group3 d1 d2 n s Hs Hsd) as (Hgroups & _).
  change ("." +:+ String d1 (String d2 "")) with (String "." (String d1 (String d2 ""))).
  unfold dollar_shape.
  destruct sign; rewrite ?append_String, ?append_empty; cbn [strip_sign fst snd];
    [change (Ascii.eqb "-" "-") with true | change (Ascii.eqb "$" "-") with false];
    cbv iota; cbn [fst snd]; change (Ascii.eqb "$" "$") with true; cbn [andb];
    rewrite Hlead, Hgroups; cbn [is_fraction]; change (Ascii.eqb "." ".") with true;
    now rewrite Hd1, Hd2.
Qed.

(** X19.  [formatCurrency] never throws, and its result has the shape of
    an amount in dollars exactly for the finite numbers: an optional minus
    sign, the dollar sign, one to three digits, groups of a comma and
    three digits, a point and two digits.  The minus sign is that of the
    number, negative zero included. *)
Theorem formatCurrency_shape (value : number) :
  exists s : string,
    formatCurrency value = Normal s /\
    dollar_shape s = isFinite value /\
    fst (strip_sign s) = signbit value.
Proof.
  unfold formatCurrency. eexists; split; [reflexivity |].
  assert (Hfinite : forall v : number, isFinite v = true ->
            format_usd v
            = (let n := round_half_up 2 (shortest_magnitude v) in
               let m := digits n in
               let k := String.length m in
               let m := if Nat.leb k 2 then zeros (3 - k) +:+ m else m in
               let k := Nat.max k 3 in
               (if signbit v then "-" else "") +:+ "$"
               +:+ group3 true (first_units (k - 2) m) +:+ "." +:+ other_units (k - 2) m))
    by (intros [| | |]; intros; (discriminate || reflexivity)).
  destruct (isFinite value) eqn:Hfin.
  - rewrite (Hfinite value Hfin). cbv zeta.
    pose proof (shortest_magnitude_bounds value) as Hmag.
    destruct (shortest_magnitude value) as [num den]. destruct Hmag as [Hnum Hden].
    pose proof (round_half_up_nonneg 2 num den ltac:(lia) Hnum Hden) as Hn.
    destruct (digits_spec _ Hn) as (_ & Hdig & Hlen).
    set (m0 := digits (round_half_up 2 (num, den))) in *.
    set (m := if Nat.leb (String.length m0) 2
              then zeros (3 - String.length m0) +:+ m0 else m0).
    assert (Hm : all_digits m = true /\
                 String.length m = Nat.max (String.length m0) 3).
    { unfold m. destruct (Nat.leb_spec (String.length m0) 2).
      - rewrite all_digits_app, all_digits_zeros, Hdig, length_append, length_zeros.
        split; [reflexivity | lia].
      - split; [exact Hdig | lia]. }
    destruct Hm as [Hmd Hml]. rewrite <- Hml.
    set (a := first_units (String.length m - 2) m).
    set (b := other_units (String.length m - 2) m).
    assert (Hab : a +:+ b = m) by apply first_other_units.
    assert (Hla : String.length a = (String.length m - 2)%nat)
      by (unfold a; rewrite length_first_units; lia).
    assert (Hlb : String.length b = 2%nat).
    { pose proof (length_append a b) as H. rewrite Hab in H. lia. }
    assert (Hd : all_digits a = true /\ all_digits b = true).
    { rewrite <- Hab, all_digits_app in Hmd. now apply andb_prop in Hmd. }
    apply dollar_shape_parts; try tauto.
    intros ->. cbn in Hla. lia.
  - destruct value as [s | [|] | | s m e]; try discriminate Hfin; split; reflexivity.
Qed.

Example formatCurrency_rounding :
  map formatCurrency [decimal 1005 3; decimal 2675 3; decimal (-1005) 3; decimal 999999995 3;
                      ofZ (2 ^ 70); S754_zero true]
  = [Normal "$1.01"; Normal "$2.68"; Normal "-$1.01"; Normal "$1,000,000.00";
     Normal "$1,180,591,620,717,411,300,000.00"; Normal "-$0.00"].
Proof. vm_compute. reflexivity. Qed.

Example formatCurrency_shapes :
  map (fun s => (dollar_shape s, fst (strip_sign s)))
    ["$0.52"; "-$1,234,567.80"; "$67,500.00"; "$1234.00"; "$1,23.00"; "$0.5"; "$NaN"; "0.52"]
  = [(true, false); (true, true); (true, false); (false, false); (false, false);
     (false, false); (false, false); (false, false)].
Proof. vm_compute. reflexivity. Qed.

End Amounts.
